(** * zerver/lib/onboarding.py: the Welcome Bot and the initial messages of a realm

    A shallow embedding of [zerver/lib/onboarding.py].  Python [str] values
    are Rocq strings (the UTF-8 bytes of the text), Python sets are [gset]s,
    lists are lists, the database is an explicit record of tables threaded
    through a small state-and-exception monad, and [@transaction.atomic] is a
    combinator on that monad. *)

From Stdlib Require Import ZArith Ascii String List Bool Lia.
From stdpp Require Import base decidable option list gmap strings.

(** ** Python string primitives *)

Module Py.

(** The exceptions the modelled code can raise. *)
Inductive exn : Type :=
| KeyError | ValueError | TypeError | IndexError
| AssertionError | DoesNotExist | JsonableError.

Definition dquote : string := String (ascii_of_nat 34) EmptyString.

(** Lower-casing of ASCII text: the letters A to Z are moved to a to z and
    every other byte is left as it is.  This is what [str.lower] does on a
    text made of ASCII characters only; on other text [str.lower] follows the
    Unicode case tables (the Kelvin sign becomes the letter k), which this
    function does not.  The module's code is therefore not written with this
    function but with a [str_lower] of its own, see the section of the
    module's functions; [lower] is the reference for ASCII text. *)
Definition lower_ascii (c : ascii) : ascii :=
  let n := nat_of_ascii c in
  if (Nat.leb 65 n && Nat.leb n 90)%bool then ascii_of_nat (n + 32) else c.

Fixpoint lower (s : string) : string :=
  match s with
  | EmptyString => EmptyString
  | String c s' => String (lower_ascii c) (lower s')
  end.

(** [s.isascii()]: every byte of the UTF-8 encoding is below 128. *)
Fixpoint is_ascii (s : string) : bool :=
  match s with
  | EmptyString => true
  | String c s' => (Nat.ltb (nat_of_ascii c) 128 && is_ascii s')%bool
  end.

(** [x in [a, b, ...]] on strings. *)
Definition in_list (x : string) (l : list string) : bool :=
  existsb (String.eqb x) l.

(** [sep.join(l)]. *)
Definition join (sep : string) (l : list string) : string :=
  String.concat sep l.

(** [needle in hay] on strings. *)
Fixpoint contains (needle hay : string) : bool :=
  (String.prefix needle hay
   || match hay with
      | EmptyString => false
      | String _ hay' => contains needle hay'
      end)%bool.

(** Keyword arguments of a call, in the order they are written. *)
Definition kwargs := list (string * string).

Fixpoint kwarg (name : string) (kw : kwargs) : option string :=
  match kw with
  | [] => None
  | (k, v) :: kw' => if String.eqb k name then Some v else kwarg name kw'
  end.

Definition lbrace : ascii := ascii_of_nat 123.
Definition rbrace : ascii := ascii_of_nat 125.

(** Where the scan of a format string stands: in literal text, after an
    opening or a closing brace, or inside the replacement field [name]. *)
Inductive scan : Type :=
| Text
| AfterOpen
| AfterClose
| Field (name : string).

(** [template.format] with keyword arguments [kw], for replacement fields
    that are plain keyword names: two opening or two closing braces are an
    escaped brace, a name between braces is replaced by the keyword argument
    (KeyError when there is none), and a single closing brace or a field that
    is never closed is a ValueError.

    The model is exact in one direction.  When it answers a text, every
    field of the template is the name of a keyword argument and [str.format]
    answers the same text; this is the case of every template of the module
    in the source language.  When it answers an exception, [str.format] fails
    or succeeds in its own way: an empty or numbered field raises IndexError
    (no positional argument is passed), an attribute lookup on a [str]
    raises AttributeError, and a field with a conversion, a format specifier
    or an index lookup can succeed; such a field is looked up here under its
    whole text, which is no keyword name.  Which exception a translated
    template raises is therefore a matter of this model only. *)
Fixpoint format_from (kw : kwargs) (state : scan) (s : string) : exn + string :=
  match s with
  | EmptyString =>
      match state with
      | Text => inr EmptyString
      | _ => inl ValueError
      end
  | String c s' =>
      match state with
      | Text =>
          if Ascii.eqb c lbrace then format_from kw AfterOpen s'
          else if Ascii.eqb c rbrace then format_from kw AfterClose s'
          else
            match format_from kw Text s' with
            | inr r => inr (String c r)
            | inl e => inl e
            end
      | AfterOpen =>
          if Ascii.eqb c lbrace then
            match format_from kw Text s' with
            | inr r => inr (String lbrace r)
            | inl e => inl e
            end
          else if Ascii.eqb c rbrace then
            match kwarg EmptyString kw with
            | Some v =>
                match format_from kw Text s' with
                | inr r => inr (v +:+ r)
                | inl e => inl e
                end
            | None => inl KeyError
            end
          else format_from kw (Field (String c EmptyString)) s'
      | AfterClose =>
          if Ascii.eqb c rbrace then
            match format_from kw Text s' with
            | inr r => inr (String rbrace r)
            | inl e => inl e
            end
          else inl ValueError
      | Field name =>
          if Ascii.eqb c rbrace then
            match kwarg name kw with
            | Some v =>
                match format_from kw Text s' with
                | inr r => inr (v +:+ r)
                | inl e => inl e
                end
            | None => inl KeyError
            end
          else format_from kw (Field (name +:+ String c EmptyString)) s'
      end
  end.

Definition format (template : string) (kw : kwargs) : exn + string :=
  format_from kw Text template.

(** [template % (arg,)] for the [%s] conversion: [%%] is a percent sign,
    the one [%s] is replaced by [arg]; a second [%s] (not enough arguments)
    or none (not all arguments converted) is a TypeError, a [%] at the end a
    ValueError.  [arg] is [None] once the argument is used up.

    Other conversion types, flags and widths are outside this model, which
    answers them all as an unsupported format character (ValueError), where
    Python raises TypeError for a number conversion of a [str] and succeeds
    on [%r] or on a padded [%s].  When the model answers a text, the template
    has the one plain [%s] and Python answers the same text; a template
    without any conversion is a TypeError in both. *)
Fixpoint percent_from (arg : option string) (s : string) : exn + string :=
  match s with
  | EmptyString =>
      match arg with
      | None => inr EmptyString
      | Some _ => inl TypeError
      end
  | String c s' =>
      if Ascii.eqb c "%"%char then
        match s' with
        | String c' s'' =>
            if Ascii.eqb c' "%"%char then
              match percent_from arg s'' with
              | inr r => inr (String "%"%char r)
              | inl e => inl e
              end
            else if Ascii.eqb c' "s"%char then
              match arg with
              | Some v =>
                  match percent_from None s'' with
                  | inr r => inr (v +:+ r)
                  | inl e => inl e
                  end
              | None => inl TypeError
              end
            else inl ValueError
        | EmptyString => inl ValueError
        end
      else
        match percent_from arg s' with
        | inr r => inr (String c r)
        | inl e => inl e
        end
  end.

Definition percent (template arg : string) : exn + string :=
  percent_from (Some arg) template.

Definition newline : ascii := ascii_of_nat 10.

(** [s.strip(nl)] for the newline character: [lstrip] then [rstrip]. *)
Fixpoint lstrip_newlines (s : string) : string :=
  match s with
  | EmptyString => EmptyString
  | String c s' => if Ascii.eqb c newline then lstrip_newlines s' else s
  end.

Fixpoint rstrip_newlines (s : string) : string :=
  match s with
  | EmptyString => EmptyString
  | String c s' =>
      match rstrip_newlines s' with
      | EmptyString => if Ascii.eqb c newline then EmptyString else String c EmptyString
      | r => String c r
      end
  end.

Definition strip_newlines (s : string) : string :=
  rstrip_newlines (lstrip_newlines s).

End Py.

(** ** Translation *)

(** A message catalog of the active language: msgid to translated text. *)
Abbreviation Catalog := (gmap string string).

(** [gettext], written [_] in the source: the catalog's entry for the msgid,
    and the msgid itself when the catalog has none. *)
Definition gettext (cat : Catalog) (msgid : string) : string :=
  default msgid (cat !! msgid).

(** The catalog of a language without translations (the source language). *)
Definition untranslated : Catalog := ∅.

(** ** The Welcome Bot's commands *)

Definition bot_commands (no_help_command : bool) : string :=
  let commands :=
    [ "apps"; "profile"; "theme"; "channels"; "topics";
      "message formatting"; "keyboard shortcuts" ] in
  let commands :=
    if negb no_help_command then commands ++ ["help"] else commands in
  Py.join ", " (map (fun command => "`" +:+ command +:+ "`") commands) +:+ ".".


(** ** The Welcome Bot's canned replies

    The triple-quoted literals of [select_welcome_bot_response], as msgids
    (each starts and ends with a newline, as in the source). *)

Definition apps_msgid : string := "
You can [download](/apps/) the [mobile and desktop apps](/apps/).
Zulip also works great in a browser.
".

Definition profile_msgid : string := "
Go to [Profile settings](#settings/profile) to add a [profile picture](/help/change-your-profile-picture)
and edit your [profile information](/help/edit-your-profile).
".

Definition theme_msgid : string := "
Go to [Preferences](#settings/preferences) to [switch between the light and dark themes](/help/dark-theme),
[pick your favorite emoji theme](/help/emoji-and-emoticons#change-your-emoji-set),
[change your language](/help/change-your-language), and make other tweaks
to your Zulip experience.
".

Definition channels_msgid : string := "
In Zulip, channels [determine who gets a message]({help_link}).

[Browse and subscribe to channels]({settings_link}).
".

Definition topics_msgid : string := "
In Zulip, topics [tell you what a message is about](/help/introduction-to-topics).
They are light-weight subjects, very similar to the subject line of an email.

Check out [Recent conversations](#recent) to see what's happening!
You can return to this conversation by clicking " +:+ Py.dquote +:+ "Direct messages" +:+ Py.dquote +:+ " in the upper left.
".

Definition shortcuts_msgid : string := "
Zulip's [keyboard shortcuts](#keyboard-shortcuts) let you navigate the app
quickly and efficiently.

Press `?` any time to see a [cheat sheet](#keyboard-shortcuts).
".

Definition formatting_msgid : string := "
Zulip uses [Markdown](/help/format-your-message-using-markdown),
an intuitive format for **bold**, *italics*, bulleted lists, and more.
Click [here](#message-formatting) for a cheat sheet.

Check out our [messaging tips](/help/messaging-tips) to learn
about emoji reactions, code blocks and much more!
".

Definition help_msgid : string := "
Here are a few messages I understand: {bot_commands}

Check out our [Getting started guide](/help/getting-started-with-zulip),
or browse the [Help center](/help/) to learn more!
".

Definition fallback_msgid : string := "
I’m sorry, I did not understand your message. Please try
one of the following commands: {bot_commands}
".

(** [cat] is the catalog of the language active when the function runs. *)
Definition select_welcome_bot_response (cat : Catalog) (human_response_lower : string)
  : Py.exn + string :=
  if Py.in_list human_response_lower ["app"; "apps"] then
    inr (gettext cat apps_msgid)
  else if String.eqb human_response_lower "profile" then
    inr (gettext cat profile_msgid)
  else if String.eqb human_response_lower "theme" then
    inr (gettext cat theme_msgid)
  else if Py.in_list human_response_lower ["stream"; "streams"; "channel"; "channels"] then
    Py.format (gettext cat channels_msgid)
      [("help_link", "/help/introduction-to-channels"); ("settings_link", "#channels/all")]
  else if Py.in_list human_response_lower ["topic"; "topics"] then
    inr (gettext cat topics_msgid)
  else if Py.in_list human_response_lower ["keyboard"; "shortcuts"; "keyboard shortcuts"] then
    inr (gettext cat shortcuts_msgid)
  else if Py.in_list human_response_lower ["formatting"; "message formatting"] then
    inr (gettext cat formatting_msgid)
  else if Py.in_list human_response_lower ["help"; "?"] then
    Py.format (gettext cat help_msgid) [("bot_commands", bot_commands true)]
  else
    Py.format (gettext cat fallback_msgid) [("bot_commands", bot_commands false)].


(** ** The data model *)

(** A row of [Realm]: the organization. *)
Record Realm : Type := {
  realm_id : Z;
  org_type : Z;
  demo_organization_scheduled_deletion_date : option Z
}.

(** A row of [UserProfile], with its realm fetched. *)
Record UserProfile : Type := {
  user_id : Z;
  email : string;
  realm : Realm;
  default_language : string;
  is_realm_admin : bool;
  is_realm_owner : bool
}.

(** Where a message goes: a channel and topic, or one user. *)
Inductive Recipient : Type :=
| Stream (channel_name topic_name : string)
| Direct (to_user_id : Z).

(** What a send call is given: a message that has no id yet. *)
Record SendMessageRequest : Type := {
  req_realm : Realm;
  req_sender : UserProfile;
  req_recipient : Recipient;
  req_content : string;
  req_disable_external_notifications : bool
}.

(** A row of [Message]. *)
Record Message : Type := {
  message_id : Z;
  message_request : SendMessageRequest
}.

Definition content (m : Message) : string := req_content (message_request m).

(** A row of [OnboardingUserMessage]; [flags] is a bit field. *)
Record OnboardingUserMessage : Type := {
  oum_realm_id : Z;
  oum_message_id : Z;
  oum_flags : Z
}.

Record EmojiData : Type := {
  emoji_code : string;
  reaction_type : string
}.

(** A row of [Reaction]. *)
Record Reaction : Type := {
  reaction_user_id : Z;
  reaction_message_id : Z;
  reaction_emoji_name : string;
  reaction_emoji_code : string;
  reaction_reaction_type : string
}.

(** The tables the module reads and writes, and the two id sequences. *)
Record DB : Type := {
  realms : list Realm;
  user_profiles : list UserProfile;
  messages : list Message;
  onboarding_user_messages : list OnboardingUserMessage;
  reactions : list Reaction;
  next_message_id : Z;
  next_user_id : Z
}.

(** An entry of [settings.REALM_INTERNAL_BOTS]. *)
Record InternalBot : Type := {
  bot_name : string;
  email_template : string
}.

Record Settings : Type := {
  INTERNAL_BOT_DOMAIN : string;
  REALM_INTERNAL_BOTS : list InternalBot;
  WELCOME_BOT : string
}.

(** ** Database code: state and exceptions

    A computation takes the database and gives a value or the exception it
    raised, and the database as it is at that point: what was written before
    an exception stays written unless a transaction rolls it back. *)

Definition M (A : Type) : Type := DB -> (Py.exn + A) * DB.

Definition ret {A : Type} (a : A) : M A := fun db => (inr a, db).

Definition raise {A : Type} (e : Py.exn) : M A := fun db => (inl e, db).

Definition bind {A B : Type} (m : M A) (k : A -> M B) : M B :=
  fun db =>
    match m db with
    | (inr a, db') => k a db'
    | (inl e, db') => (inl e, db')
    end.

(** A pure step that may raise. *)
Definition lift {A : Type} (r : Py.exn + A) : M A := fun db => (r, db).

Definition get_db : M DB := fun db => (inr db, db).

Notation "'let*' x ':=' m 'in' k" := (bind m (fun x => k))
  (at level 10, x name, m at level 100, k at level 200).

(** Sequencing of pure steps that may raise. *)
Definition and_then {A B : Type} (r : Py.exn + A) (k : A -> Py.exn + B) : Py.exn + B :=
  match r with
  | inl e => inl e
  | inr a => k a
  end.

Notation "'let?' x ':=' r 'in' k" := (and_then r (fun x => k))
  (at level 10, x name, r at level 100, k at level 200).

(** [@transaction.atomic]: the writes of [m] are kept when it returns and
    undone when it raises; the exception goes on to the caller. *)
Definition atomic {A : Type} (m : M A) : M A :=
  fun db =>
    match m db with
    | (inr a, db') => (inr a, db')
    | (inl e, _) => (inl e, db)
    end.

(** [for x in l: body x]. *)
Fixpoint for_each {A : Type} (l : list A) (body : A -> M unit) : M unit :=
  match l with
  | [] => ret tt
  | x :: l' => let* _ := body x in for_each l' body
  end.

(** A list comprehension whose element expression may raise. *)
Fixpoint comprehension {A B : Type} (f : A -> Py.exn + B) (l : list A) : Py.exn + list B :=
  match l with
  | [] => inr []
  | x :: l' =>
      match f x with
      | inl e => inl e
      | inr y =>
          match comprehension f l' with
          | inl e => inl e
          | inr ys => inr (y :: ys)
          end
      end
  end.

(** ** The messaging backend

    The functions below are imported by [onboarding.py] from other modules of
    the server ([zerver.actions], [zerver.lib.message], [zerver.models]), and
    the Django query calls it makes. *)

(** The characters before which a newline is kept: a newline, a digit, [*]
    and [-]. *)
Definition keeps_newline_before (c : ascii) : bool :=
  let n := nat_of_ascii c in
  (Ascii.eqb c Py.newline || (Nat.leb 48 n && Nat.leb n 57)
   || Ascii.eqb c "*"%char || Ascii.eqb c "-"%char)%bool.

Fixpoint join_single_newlines (after_newline : bool) (s : string) : string :=
  match s with
  | EmptyString => EmptyString
  | String c s' =>
      if Ascii.eqb c Py.newline then
        let kept :=
          (after_newline
           || match s' with
              | String c' _ => keeps_newline_before c'
              | EmptyString => false
              end)%bool in
        String (if kept then Py.newline else " "%char) (join_single_newlines true s')
      else String c (join_single_newlines false s')
  end.

(** Modelled from the spec: [remove_single_newlines] of [zerver.lib.message]
    is not among the sources; the spec calls it the whitespace-normalization
    utility for multi-line template strings.  The newlines at both ends are
    stripped, and a newline that stands alone (no newline before it and no
    newline, digit, [*] or [-] after it) becomes a space. *)
Definition remove_single_newlines_model (s : string) : string :=
  join_single_newlines false (Py.strip_newlines s).

(** Modelled from the spec: [get_system_bot] of [zerver.models.users], the
    bot-identity lookup by name and organization.  It is the account of that
    email in that realm, and raises [DoesNotExist] when there is none. *)
Definition get_system_bot (bot_email : string) (realm_id' : Z) : M UserProfile :=
  fun db =>
    match List.find (fun u => String.eqb (email u) bot_email
                              && Z.eqb (realm_id (realm u)) realm_id')%bool
                    (user_profiles db) with
    | Some u => (inr u, db)
    | None => (inl Py.DoesNotExist, db)
    end.

(** Modelled from the spec: storing one message.  The row gets the next id of
    the sequence and is added after the rows already there. *)
Definition insert_message (req : SendMessageRequest) : M Z :=
  fun db =>
    let id := next_message_id db in
    (inr id,
     {| realms := realms db;
        user_profiles := user_profiles db;
        messages := messages db ++ [{| message_id := id; message_request := req |}];
        onboarding_user_messages := onboarding_user_messages db;
        reactions := reactions db;
        next_message_id := id + 1;
        next_user_id := next_user_id db |}).

(** Modelled from the spec: [internal_send_private_message] of
    [zerver.actions.message_send], the direct message-send primitive with the
    notification-suppression option.  One message row is created, addressed
    sender to recipient, and its id is returned. *)
Definition internal_send_private_message
    (sender recipient_user : UserProfile) (content' : string)
    (disable_external_notifications : bool) : M (option Z) :=
  let* id := insert_message
               {| req_realm := realm sender;
                  req_sender := sender;
                  req_recipient := Direct (user_id recipient_user);
                  req_content := content';
                  req_disable_external_notifications := disable_external_notifications |} in
  ret (Some id).

(** Modelled from the spec: [internal_prep_stream_message_by_name], the
    channel message-send primitive's preparation step. *)
Definition internal_prep_stream_message_by_name
    (realm' : Realm) (sender : UserProfile) (channel_name topic_name content' : string)
  : SendMessageRequest :=
  {| req_realm := realm';
     req_sender := sender;
     req_recipient := Stream channel_name topic_name;
     req_content := content';
     req_disable_external_notifications := false |}.

Record SentMessageResult : Type := { sent_message_id : Z }.

(** Modelled from the spec: [do_send_messages], which stores the prepared
    messages in the order given and answers one result per message. *)
Fixpoint do_send_messages (reqs : list SendMessageRequest) : M (list SentMessageResult) :=
  match reqs with
  | [] => ret []
  | req :: reqs' =>
      let* id := insert_message req in
      let* rest := do_send_messages reqs' in
      ret ({| sent_message_id := id |} :: rest)
  end.

(** Modelled from the spec: [OnboardingUserMessage.objects.bulk_create], the
    bulk row insert for onboarding markers. *)
Definition bulk_create (rows : list OnboardingUserMessage) : M unit :=
  fun db =>
    (inr tt,
     {| realms := realms db;
        user_profiles := user_profiles db;
        messages := messages db;
        onboarding_user_messages := onboarding_user_messages db ++ rows;
        reactions := reactions db;
        next_message_id := next_message_id db;
        next_user_id := next_user_id db |}).

(** [QuerySet.first()] of a query with no ordering: the row of least id. *)
Fixpoint first_by_pk (rows : list Message) : option Message :=
  match rows with
  | [] => None
  | m :: rows' =>
      match first_by_pk rows' with
      | Some m' => if Z.leb (message_id m) (message_id m') then Some m else Some m'
      | None => Some m
      end
  end.

(** [Message.objects.select_for_update().filter(id__in=ids, content=c).first()]. *)
Definition first_message_with (ids : list Z) (c : string) : M (option Message) :=
  fun db =>
    (inr (first_by_pk
            (List.filter (fun m => existsb (Z.eqb (message_id m)) ids
                                   && String.eqb (content m) c)%bool
                         (messages db))),
     db).

(** Modelled from the spec: [do_add_reaction] of [zerver.actions.reactions],
    the reaction-add primitive. *)
Definition do_add_reaction
    (user : UserProfile) (m : Message) (emoji_name emoji_code' reaction_type' : string)
  : M unit :=
  fun db =>
    (inr tt,
     {| realms := realms db;
        user_profiles := user_profiles db;
        messages := messages db;
        onboarding_user_messages := onboarding_user_messages db;
        reactions := reactions db ++
          [{| reaction_user_id := user_id user;
              reaction_message_id := message_id m;
              reaction_emoji_name := emoji_name;
              reaction_emoji_code := emoji_code';
              reaction_reaction_type := reaction_type' |}];
        next_message_id := next_message_id db;
        next_user_id := next_user_id db |}).

(** ** The system bots of a realm *)

(** [bot_emails] of [missing_any_realm_internal_bots]: the configured bots'
    email templates, filled with the bot domain. *)
Definition bot_emails (settings : Settings) : Py.exn + list string :=
  comprehension
    (fun bot => Py.percent (email_template bot) (INTERNAL_BOT_DOMAIN settings))
    (REALM_INTERNAL_BOTS settings).

Definition has_account (email' : string) (realm_id' : Z) (u : UserProfile) : bool :=
  (String.eqb (email u) email' && Z.eqb (realm_id (realm u)) realm_id')%bool.

(** Modelled from the spec: one step of [setup_realm_internal_bots], the
    creation of a missing bot: nothing when the realm has an account of that
    email, else a new account with the next id of the sequence. *)
Definition create_bot_if_missing (realm' : Realm) (email' : string) : M unit :=
  fun db =>
    if existsb (has_account email' (realm_id realm')) (user_profiles db) then (inr tt, db)
    else
      (inr tt,
       {| realms := realms db;
          user_profiles := user_profiles db ++
            [{| user_id := next_user_id db;
                email := email';
                realm := realm';
                default_language := "en";
                is_realm_admin := false;
                is_realm_owner := false |}];
          messages := messages db;
          onboarding_user_messages := onboarding_user_messages db;
          reactions := reactions db;
          next_message_id := next_message_id db;
          next_user_id := next_user_id db + 1 |}).

(** Modelled from the spec: [setup_realm_internal_bots] of
    [zerver.actions.create_realm], which creates the configured system bots
    that the realm is missing. *)
Definition setup_realm_internal_bots (settings : Settings) (realm' : Realm) : M unit :=
  let* emails := lift (bot_emails settings) in
  for_each emails (create_bot_if_missing realm').

(** [.values(email).annotate(count=Count(id))]: one group per distinct email,
    with the number of rows of that email. *)
Definition count_by_email (rows : list UserProfile) : list (string * nat) :=
  map (fun e => (e, length (List.filter (fun u => String.eqb (email u) e) rows)))
      (remove_dups (map email rows)).

Definition missing_any_realm_internal_bots (settings : Settings) : M bool :=
  let* bot_emails := lift (bot_emails settings) in
  let* db := get_db in
  let realm_count := length (realms db) in
  ret (negb (Nat.eqb
    (length
       (List.filter (fun g => Nat.eqb (snd g) realm_count)
          (count_by_email
             (List.filter (fun u => Py.in_list (email u) bot_emails) (user_profiles db)))))
    (length bot_emails))).

Definition create_if_missing_realm_internal_bots (settings : Settings) : M unit :=
  let* missing := missing_any_realm_internal_bots settings in
  if missing then
    let* db := get_db in
    for_each (realms db) (setup_realm_internal_bots settings)
  else ret tt.

(** ** The initial direct message: the literals of [send_initial_direct_message] *)

Definition getting_started_education_msgid : string := "
If you are new to Zulip, check out our [Using Zulip for a class guide]({getting_started_url})!
".

Definition getting_started_msgid : string := "
If you are new to Zulip, check out our [Getting started guide]({getting_started_url})!
".

Definition organization_setup_education_msgid : string := "
We also have a guide for [Setting up Zulip for a class]({organization_setup_url}).
".

Definition organization_setup_msgid : string := "
We also have a guide for [Setting up your organization]({organization_setup_url}).
".

Definition demo_organization_warning_msgid : string := "
Note that this is a [demo organization]({demo_organization_help_url}) and
will be **automatically deleted** in 30 days.
".

Definition initial_direct_message_msgid : string := "
Hello, and welcome to Zulip!👋 This is a direct message from me, Welcome Bot.

{getting_started_text} {organization_setup_text}

{demo_organization_text}

I can also help you get set up! Just click anywhere on this message or press `r` to reply.

Here are a few messages I understand: {bot_commands}
".

(** ** The initial messages of a realm: the literals of [send_initial_realm_messages] *)

Definition moving_messages_1_msgid : string := "
If anything is out of place, it’s easy to [move messages]({move_content_another_topic_help_url}),
[rename]({rename_topic_help_url}) and [split]({move_content_another_topic_help_url}) topics,
or even move a topic [to a different channel]({move_content_another_channel_help_url}).
".

Definition moving_messages_2_msgid : string := "
:point_right: Try moving this message to another topic and back.
".

Definition welcome_to_zulip_1_msgid : string := "
Zulip is organized to help you communicate more efficiently. Conversations are
labeled with topics, which summarize what the conversation is about.

For example, this message is in the “{topic_name}” topic in the
#**{zulip_discussion_channel_name}** channel, as you can see in the left sidebar
and above.
".

Definition welcome_to_zulip_2_msgid : string := "
You can read Zulip one conversation at a time, seeing each message in context,
no matter how many other conversations are going on.
".

Definition welcome_to_zulip_3_msgid : string := "
:point_right: When you're ready, check out your [Inbox](/#inbox) for other
conversations with unread messages.
".

Definition start_conversation_1_msgid : string := "
To kick off a new conversation, click **Start new conversation** below.
The new conversation thread will be labeled with its own topic.
".

Definition start_conversation_2_msgid : string := "
For a good topic name, think about finishing the sentence: “Hey, can we chat about…?”
".

Definition start_conversation_3_msgid : string := "
:point_right: Try starting a new conversation in this channel.
".

Definition experiments_1_msgid : string := "
:point_right:  Use this topic to try out [Zulip's messaging features]({format_message_help_url}).
".

Definition experiments_2_msgid : string := "
```spoiler Want to see some examples?

````python
print(" +:+ Py.dquote +:+ "code blocks" +:+ Py.dquote +:+ ")
````

- bulleted
- lists

Link to a conversation: #**{zulip_discussion_channel_name}>{topic_name}**
```
".

Definition greetings_1_msgid : string := "
This **greetings** topic is a great place to say “hi” :wave: to your teammates.
".

Definition greetings_2_msgid : string := "
:point_right: Click on this message to start a new message in the same conversation.
".

(** An entry of [welcome_messages]: the dict with the keys [channel_name],
    [topic_name] and [content]. *)
Record WelcomeMessage : Type := {
  wm_channel_name : string;
  wm_topic_name : string;
  wm_content : string
}.

(** ** The module's functions *)

Section Onboarding.

(** [django.conf.settings]. *)
Variable settings : Settings.

(** The translations installed, by language code. *)
Variable catalogs : string -> Catalog.

(** [str.lower], Python's built-in, which lower-cases a text by the Unicode
    case tables.  The functions below are written for any such function;
    what a statement needs of it is a hypothesis of that statement. *)
Variable str_lower : string -> string.

(** [remove_single_newlines] of [zerver.lib.message], which is not among the
    sources. *)
Variable remove_single_newlines : string -> string.

(** [get_emoji_data] of [zerver.lib.emoji], which is not among the sources:
    the emoji-metadata lookup, by realm id and emoji name. *)
Variable get_emoji_data : Z -> string -> Py.exn + EmojiData.

(** The ids [Realm.ORG_TYPES[...][id]] of the two education categories. *)
Variables ORG_TYPE_education_nonprofit_id ORG_TYPE_education_id : Z.

(** [str(Realm.ZULIP_DISCUSSION_CHANNEL_NAME)] and its two siblings. *)
Variables ZULIP_DISCUSSION_CHANNEL_NAME ZULIP_SANDBOX_CHANNEL_NAME
          DEFAULT_NOTIFICATION_STREAM_NAME : string.

(** [OnboardingUserMessage.flags.historical] and [.starred], as bit masks. *)
Variables flags_historical flags_starred : Z.

Definition education_organization (user : UserProfile) : bool :=
  (Z.eqb (org_type (realm user)) ORG_TYPE_education_nonprofit_id
   || Z.eqb (org_type (realm user)) ORG_TYPE_education_id)%bool.

(** The body of [with override_language(user.default_language)]: the text of
    the message before [remove_single_newlines]. *)
Definition initial_direct_message_content (user : UserProfile) : Py.exn + string :=
  let cat := catalogs (default_language user) in
  let? getting_started_string :=
    if education_organization user then
      Py.format (gettext cat getting_started_education_msgid)
        [("getting_started_url", "/help/using-zulip-for-a-class")]
    else
      Py.format (gettext cat getting_started_msgid)
        [("getting_started_url", "/help/getting-started-with-zulip")] in
  let? organization_setup_string :=
    if is_realm_admin user then
      if education_organization user then
        Py.format (gettext cat organization_setup_education_msgid)
          [("organization_setup_url", "/help/setting-up-zulip-for-a-class")]
      else
        Py.format (gettext cat organization_setup_msgid)
          [("organization_setup_url", "/help/getting-your-organization-started-with-zulip")]
    else inr EmptyString in
  let? demo_organization_warning_string :=
    if (is_realm_owner user
        && bool_decide (demo_organization_scheduled_deletion_date (realm user) <> None))%bool
    then
      Py.format (gettext cat demo_organization_warning_msgid)
        [("demo_organization_help_url", "/help/demo-organizations")]
    else inr EmptyString in
  Py.format (gettext cat initial_direct_message_msgid)
    [("getting_started_text", getting_started_string);
     ("organization_setup_text", organization_setup_string);
     ("demo_organization_text", demo_organization_warning_string);
     ("bot_commands", bot_commands false)].

Definition send_initial_direct_message (user : UserProfile) : M Z :=
  let* content := lift (initial_direct_message_content user) in
  let* welcome_bot := get_system_bot (WELCOME_BOT settings) (realm_id (realm user)) in
  let* message_id :=
    internal_send_private_message welcome_bot user (remove_single_newlines content) true in
  match message_id with
  | Some id => ret id
  | None => raise Py.AssertionError
  end.

(** [cat] is the catalog of the language active when the function runs. *)
Definition send_welcome_bot_response (cat : Catalog) (send_request : SendMessageRequest)
  : M unit :=
  let* welcome_bot :=
    get_system_bot (WELCOME_BOT settings) (realm_id (req_realm send_request)) in
  let human_response_lower := str_lower (req_content send_request) in
  let* content := lift (select_welcome_bot_response cat human_response_lower) in
  let* _ :=
    internal_send_private_message welcome_bot (req_sender send_request)
      (remove_single_newlines content) true in
  ret tt.

(** The first greetings message, which the reaction is looked up by. *)
Definition content1_of_greetings_topic_name (cat : Catalog) : string :=
  gettext cat greetings_1_msgid.

(** The message declarations of [send_initial_realm_messages]: the contents,
    and the list [welcome_messages] built from them with [+=]. *)
Definition welcome_messages (cat : Catalog) : Py.exn + list WelcomeMessage :=
  let? content1_of_moving_messages_topic_name :=
    Py.format (gettext cat moving_messages_1_msgid)
      [("move_content_another_topic_help_url", "/help/move-content-to-another-topic");
       ("rename_topic_help_url", "/help/rename-a-topic");
       ("move_content_another_channel_help_url", "/help/move-content-to-another-channel")] in
  let content2_of_moving_messages_topic_name := gettext cat moving_messages_2_msgid in
  let? content1_of_welcome_to_zulip_topic_name :=
    Py.format (gettext cat welcome_to_zulip_1_msgid)
      [("zulip_discussion_channel_name", ZULIP_DISCUSSION_CHANNEL_NAME);
       ("topic_name", gettext cat "welcome to Zulip!")] in
  let content2_of_welcome_to_zulip_topic_name := gettext cat welcome_to_zulip_2_msgid in
  let content3_of_welcome_to_zulip_topic_name := gettext cat welcome_to_zulip_3_msgid in
  let content1_of_start_conversation_topic_name := gettext cat start_conversation_1_msgid in
  let content2_of_start_conversation_topic_name := gettext cat start_conversation_2_msgid in
  let content3_of_start_conversation_topic_name := gettext cat start_conversation_3_msgid in
  let? content1_of_experiments_topic_name :=
    Py.format (gettext cat experiments_1_msgid)
      [("format_message_help_url", "/help/format-your-message-using-markdown")] in
  let? content2_of_experiments_topic_name :=
    Py.format (gettext cat experiments_2_msgid)
      [("zulip_discussion_channel_name", ZULIP_DISCUSSION_CHANNEL_NAME);
       ("topic_name", gettext cat "welcome to Zulip!")] in
  let content2_of_greetings_topic_name := gettext cat greetings_2_msgid in
  let welcome_messages := [] in
  let welcome_messages := welcome_messages ++
    map (fun content =>
           {| wm_channel_name := ZULIP_DISCUSSION_CHANNEL_NAME;
              wm_topic_name := gettext cat "moving messages";
              wm_content := content |})
        [content1_of_moving_messages_topic_name; content2_of_moving_messages_topic_name] in
  let welcome_messages := welcome_messages ++
    map (fun content =>
           {| wm_channel_name := ZULIP_SANDBOX_CHANNEL_NAME;
              wm_topic_name := gettext cat "experiments";
              wm_content := content |})
        [content1_of_experiments_topic_name; content2_of_experiments_topic_name] in
  let welcome_messages := welcome_messages ++
    map (fun content =>
           {| wm_channel_name := ZULIP_SANDBOX_CHANNEL_NAME;
              wm_topic_name := gettext cat "start a conversation";
              wm_content := content |})
        [content1_of_start_conversation_topic_name;
         content2_of_start_conversation_topic_name;
         content3_of_start_conversation_topic_name] in
  let welcome_messages := welcome_messages ++
    map (fun content =>
           {| wm_channel_name := DEFAULT_NOTIFICATION_STREAM_NAME;
              wm_topic_name := gettext cat "greetings";
              wm_content := content |})
        [content1_of_greetings_topic_name cat; content2_of_greetings_topic_name] in
  let welcome_messages := welcome_messages ++
    map (fun content =>
           {| wm_channel_name := ZULIP_DISCUSSION_CHANNEL_NAME;
              wm_topic_name := gettext cat "welcome to Zulip!";
              wm_content := content |})
        [content1_of_welcome_to_zulip_topic_name;
         content2_of_welcome_to_zulip_topic_name;
         content3_of_welcome_to_zulip_topic_name] in
  inr welcome_messages.

(** The loop over [enumerate(welcome_messages)]: [seen_topics] and
    [onboarding_topics_first_message_ids] are the two sets it fills, [index]
    the position of the head of [remaining]; [message_ids[index]] raises
    IndexError out of range. *)
Fixpoint first_message_ids_from (index : nat) (remaining : list WelcomeMessage)
    (message_ids : list Z) (seen_topics : gset string)
    (onboarding_topics_first_message_ids : gset Z) : Py.exn + gset Z :=
  match remaining with
  | [] => inr onboarding_topics_first_message_ids
  | message :: remaining' =>
      let topic_name := wm_topic_name message in
      if bool_decide (topic_name ∉ seen_topics) then
        match message_ids !! index with
        | Some id =>
            first_message_ids_from (S index) remaining' message_ids
              (seen_topics ∪ {[topic_name]})
              (onboarding_topics_first_message_ids ∪ {[id]})
        | None => inl Py.IndexError
        end
      else
        first_message_ids_from (S index) remaining' message_ids
          seen_topics onboarding_topics_first_message_ids
  end.

(** The loop that builds [onboarding_user_messages]. *)
Definition onboarding_rows (realm' : Realm) (message_ids : list Z)
    (onboarding_topics_first_message_ids : gset Z) : list OnboardingUserMessage :=
  map (fun message_id' =>
         let flags := flags_historical in
         let flags :=
           if bool_decide (message_id' ∈ onboarding_topics_first_message_ids)
           then Z.lor flags flags_starred else flags in
         {| oum_realm_id := realm_id realm'; oum_message_id := message_id'; oum_flags := flags |})
      message_ids.

(** The function under its decorator. *)
Definition send_initial_realm_messages_body (cat : Catalog) (realm' : Realm) : M unit :=
  let* welcome_bot := get_system_bot (WELCOME_BOT settings) (realm_id realm') in
  let* welcome_messages := lift (welcome_messages cat) in
  let messages :=
    map (fun message =>
           internal_prep_stream_message_by_name realm' welcome_bot
             (wm_channel_name message) (wm_topic_name message)
             (remove_single_newlines (wm_content message)))
        welcome_messages in
  let* results := do_send_messages messages in
  let message_ids := map sent_message_id results in
  let* onboarding_topics_first_message_ids :=
    lift (first_message_ids_from 0 welcome_messages message_ids ∅ ∅) in
  let onboarding_user_messages :=
    onboarding_rows realm' message_ids onboarding_topics_first_message_ids in
  let* _ := bulk_create onboarding_user_messages in
  let* greetings_message :=
    first_message_with message_ids
      (remove_single_newlines (content1_of_greetings_topic_name cat)) in
  match greetings_message with
  | None => raise Py.AssertionError
  | Some greetings_message =>
      let* emoji_data := lift (get_emoji_data (realm_id realm') "wave") in
      do_add_reaction welcome_bot greetings_message "wave"
        (emoji_code emoji_data) (reaction_type emoji_data)
  end.

(** [cat] is the catalog of the language active when the function runs. *)
Definition send_initial_realm_messages (cat : Catalog) (realm' : Realm) : M unit :=
  atomic (send_initial_realm_messages_body cat realm').

End Onboarding.

(** ** The responder's keyword table, as the specification words it *)

Inductive keyword_group : Type :=
| Apps | Profile | Theme | Channels | Topics | Shortcuts | Formatting | Help.

Definition keywords (g : keyword_group) : list string :=
  match g with
  | Apps => ["app"; "apps"]
  | Profile => ["profile"]
  | Theme => ["theme"]
  | Channels => ["stream"; "streams"; "channel"; "channels"]
  | Topics => ["topic"; "topics"]
  | Shortcuts => ["keyboard"; "shortcuts"; "keyboard shortcuts"]
  | Formatting => ["formatting"; "message formatting"]
  | Help => ["help"; "?"]
  end.

(** The canned text of a group, in the language of [cat]. *)
Definition canned_response (cat : Catalog) (g : keyword_group) : Py.exn + string :=
  match g with
  | Apps => inr (gettext cat apps_msgid)
  | Profile => inr (gettext cat profile_msgid)
  | Theme => inr (gettext cat theme_msgid)
  | Channels =>
      Py.format (gettext cat channels_msgid)
        [("help_link", "/help/introduction-to-channels"); ("settings_link", "#channels/all")]
  | Topics => inr (gettext cat topics_msgid)
  | Shortcuts => inr (gettext cat shortcuts_msgid)
  | Formatting => inr (gettext cat formatting_msgid)
  | Help => Py.format (gettext cat help_msgid) [("bot_commands", bot_commands true)]
  end.

(** The reply to a message that matches no keyword. *)
Definition fallback_response (cat : Catalog) : Py.exn + string :=
  Py.format (gettext cat fallback_msgid) [("bot_commands", bot_commands false)].

(** The initial direct message in the source language, for a user of an
    education organization or not, an administrator or not, and the owner of
    an organization scheduled for deletion or not. *)
Definition initial_direct_message_text (education admin demo_owner : bool) : string :=
  "
Hello, and welcome to Zulip!👋 This is a direct message from me, Welcome Bot.

" +:+ (if education then "
If you are new to Zulip, check out our [Using Zulip for a class guide](/help/using-zulip-for-a-class)!
" else "
If you are new to Zulip, check out our [Getting started guide](/help/getting-started-with-zulip)!
") +:+ " " +:+ (if admin then
                 if education then "
We also have a guide for [Setting up Zulip for a class](/help/setting-up-zulip-for-a-class).
" else "
We also have a guide for [Setting up your organization](/help/getting-your-organization-started-with-zulip).
" else EmptyString) +:+ "

" +:+ (if demo_owner then "
Note that this is a [demo organization](/help/demo-organizations) and
will be **automatically deleted** in 30 days.
" else EmptyString) +:+ "

I can also help you get set up! Just click anywhere on this message or press `r` to reply.

Here are a few messages I understand: " +:+ bot_commands false +:+ "
".

(** The row that [internal_send_private_message] stores. *)
Definition direct_message (id : Z) (sender recipient_user : UserProfile) (text : string)
  : Message :=
  {| message_id := id;
     message_request :=
       {| req_realm := realm sender;
          req_sender := sender;
          req_recipient := Direct (user_id recipient_user);
          req_content := text;
          req_disable_external_notifications := true |} |}.

(** The rows that [do_send_messages] stores for [reqs], the first with the
    id [first_id]. *)
Fixpoint stored (first_id : Z) (reqs : list SendMessageRequest) : list Message :=
  match reqs with
  | [] => []
  | req :: reqs' =>
      {| message_id := first_id; message_request := req |} :: stored (first_id + 1) reqs'
  end.

(** A marker row carries the flag [flag] (a bit mask). *)
Definition has_flag (flag : Z) (row : OnboardingUserMessage) : Prop :=
  Z.land (oum_flags row) flag = flag.

(** The first message of its topic: no earlier entry has the topic of the
    entry at [i]. *)
Definition first_of_its_topic (l : list WelcomeMessage) (i : nat) : Prop :=
  forall j w w',
    (j < i)%nat -> l !! j = Some w' -> l !! i = Some w ->
    wm_topic_name w' <> wm_topic_name w.

(** The reaction that [do_add_reaction] stores. *)
Definition wave_reaction (bot : UserProfile) (m : Message) (e : EmojiData) : Reaction :=
  {| reaction_user_id := user_id bot;
     reaction_message_id := message_id m;
     reaction_emoji_name := "wave";
     reaction_emoji_code := emoji_code e;
     reaction_reaction_type := reaction_type e |}.

(** The twelve declared messages, in the order of the source: [m1], [e1],
    [e2] and [w1] are the four contents that are formatted. *)
Definition declared_welcome_messages
    (discussion sandbox notifications : string) (cat : Catalog) (m1 e1 e2 w1 : string)
  : list WelcomeMessage :=
  let entry channel topic text :=
    {| wm_channel_name := channel; wm_topic_name := gettext cat topic; wm_content := text |} in
  [ entry discussion "moving messages" m1;
    entry discussion "moving messages" (gettext cat moving_messages_2_msgid);
    entry sandbox "experiments" e1;
    entry sandbox "experiments" e2;
    entry sandbox "start a conversation" (gettext cat start_conversation_1_msgid);
    entry sandbox "start a conversation" (gettext cat start_conversation_2_msgid);
    entry sandbox "start a conversation" (gettext cat start_conversation_3_msgid);
    entry notifications "greetings" (gettext cat greetings_1_msgid);
    entry notifications "greetings" (gettext cat greetings_2_msgid);
    entry discussion "welcome to Zulip!" w1;
    entry discussion "welcome to Zulip!" (gettext cat welcome_to_zulip_2_msgid);
    entry discussion "welcome to Zulip!" (gettext cat welcome_to_zulip_3_msgid) ].

(** The database after [new] messages, [rows] markers and [rs] reactions
    were added. *)
Definition seeded (db : DB) (new : list Message) (rows : list OnboardingUserMessage)
    (rs : list Reaction) : DB :=
  {| realms := realms db;
     user_profiles := user_profiles db;
     messages := messages db ++ new;
     onboarding_user_messages := onboarding_user_messages db ++ rows;
     reactions := reactions db ++ rs;
     next_message_id := next_message_id db + Z.of_nat (length new);
     next_user_id := next_user_id db |}.

(** The realm [r] has an account of the email [e]. *)
Definition has_bot (db : DB) (r : Realm) (e : string) : bool :=
  existsb (has_account e (realm_id r)) (user_profiles db).

(** Some organization is missing some configured system bot account. *)
Definition some_realm_misses_some_bot (emails : list string) (db : DB) : bool :=
  existsb (fun r => existsb (fun e => negb (has_bot db r e)) emails) (realms db).

(** The number of accounts whose email is one of the bot emails. *)
Definition matching_accounts (emails : list string) (db : DB) : nat :=
  length (List.filter (fun u => Py.in_list (email u) emails) (user_profiles db)).

(** The comparison the specification describes: the count of bot-email
    matches differs from organization count times required-bot count. *)
Definition count_differs_from_product (emails : list string) (db : DB) : bool :=
  negb (Nat.eqb (matching_accounts emails db) (length (realms db) * length emails)).

(** The constraints of the two tables: one account per realm and email, one
    realm per id, and every account in a realm of the table. *)
Record consistent (db : DB) : Prop := {
  unique_account :
    NoDup (map (fun u => (realm_id (realm u), email u)) (user_profiles db));
  unique_realm : NoDup (map realm_id (realms db));
  account_realm :
    forall u, u ∈ user_profiles db -> realm_id (realm u) ∈ map realm_id (realms db)
}.

(** The accounts of the email [e]. *)
Definition accounts_of (e : string) (rows : list UserProfile) : list UserProfile :=
  List.filter (fun u => String.eqb (email u) e) rows.

(** A database with no realm and no account. *)
Definition empty_db : DB :=
  {| realms := []; user_profiles := []; messages := [];
     onboarding_user_messages := []; reactions := [];
     next_message_id := 1; next_user_id := 1 |}.

(** The database [db'] has the realms of [db] and every bot account that
    [db] has. *)
Definition keeps_bots (db db' : DB) : Prop :=
  realms db' = realms db /\
  forall r e, has_bot db r e = true -> has_bot db' r e = true.

(** ** A sample installation, for the examples *)

Definition sample_settings : Settings :=
  {| INTERNAL_BOT_DOMAIN := "zulip.com";
     REALM_INTERNAL_BOTS :=
       [ {| bot_name := "Notification Bot"; email_template := "notification-bot@%s" |};
         {| bot_name := "Welcome Bot"; email_template := "welcome-bot@%s" |} ];
     WELCOME_BOT := "welcome-bot@zulip.com" |}.

Definition sample_realm : Realm :=
  {| realm_id := 2; org_type := 35;
     demo_organization_scheduled_deletion_date := Some 30%Z |}.

Definition sample_bot (id : Z) (email' : string) (realm' : Realm) : UserProfile :=
  {| user_id := id; email := email'; realm := realm'; default_language := "en";
     is_realm_admin := false; is_realm_owner := false |}.

Definition sample_user : UserProfile :=
  {| user_id := 7; email := "iago@zulip.com"; realm := sample_realm;
     default_language := "en"; is_realm_admin := true; is_realm_owner := true |}.

Definition sample_db : DB :=
  {| realms := [sample_realm];
     user_profiles :=
       [ sample_bot 5 "notification-bot@zulip.com" sample_realm;
         sample_bot 6 "welcome-bot@zulip.com" sample_realm;
         sample_user ];
     messages := [];
     onboarding_user_messages := [];
     reactions := [];
     next_message_id := 100;
     next_user_id := 8 |}.

Definition sample_catalogs (language : string) : Catalog := untranslated.

Definition sample_emoji_data (realm_id' : Z) (emoji_name : string) : Py.exn + EmojiData :=
  if String.eqb emoji_name "wave"
  then inr {| emoji_code := "1f44b"; reaction_type := "unicode_emoji" |}
  else inl Py.JsonableError.

(** The sample's channel names and flag bits. *)
Definition sample_discussion : string := "Zulip".
Definition sample_sandbox : string := "sandbox".
Definition sample_notifications : string := "general".
Definition sample_historical : Z := 1.
Definition sample_starred : Z := 2.

(** An emoji lookup that knows no emoji. *)
Definition no_emoji_data (realm_id' : Z) (emoji_name : string) : Py.exn + EmojiData :=
  inl Py.JsonableError.

(** [send_initial_realm_messages] on the sample installation, in the source
    language, with the emoji lookup [emoji]. *)
Definition sample_send (emoji : Z -> string -> Py.exn + EmojiData) : M unit :=
  send_initial_realm_messages sample_settings remove_single_newlines_model emoji
    sample_discussion sample_sandbox sample_notifications
    sample_historical sample_starred untranslated sample_realm.

Definition sample_send_body (emoji : Z -> string -> Py.exn + EmojiData) : M unit :=
  send_initial_realm_messages_body sample_settings remove_single_newlines_model emoji
    sample_discussion sample_sandbox sample_notifications
    sample_historical sample_starred untranslated sample_realm.

(** The sample realm before its system bots are created. *)
Definition sample_db_without_bots : DB :=
  {| realms := [sample_realm];
     user_profiles := [sample_user];
     messages := [];
     onboarding_user_messages := [];
     reactions := [];
     next_message_id := 100;
     next_user_id := 8 |}.

(** An inbound direct message to the Welcome Bot. *)
Definition sample_request : SendMessageRequest :=
  {| req_realm := sample_realm;
     req_sender := sample_user;
     req_recipient := Direct 6;
     req_content := "APPS";
     req_disable_external_notifications := false |}.

(** The commands that [bot_commands] lists. *)
Definition listed_commands (no_help_command : bool) : list string :=
  [ "apps"; "profile"; "theme"; "channels"; "topics";
    "message formatting"; "keyboard shortcuts" ]
  ++ (if no_help_command then [] else ["help"]).

(** Settings with no system bot configured, and settings that list the
    Welcome Bot twice. *)
Definition sample_settings_without_bots : Settings :=
  {| INTERNAL_BOT_DOMAIN := "zulip.com";
     REALM_INTERNAL_BOTS := [];
     WELCOME_BOT := "welcome-bot@zulip.com" |}.

Definition sample_settings_with_duplicate : Settings :=
  {| INTERNAL_BOT_DOMAIN := "zulip.com";
     REALM_INTERNAL_BOTS :=
       [ {| bot_name := "Welcome Bot"; email_template := "welcome-bot@%s" |};
         {| bot_name := "Welcome Bot"; email_template := "welcome-bot@%s" |} ];
     WELCOME_BOT := "welcome-bot@zulip.com" |}.

(** Settings whose second template has no conversion for the domain. *)
Definition sample_settings_with_fixed_email : Settings :=
  {| INTERNAL_BOT_DOMAIN := "zulip.com";
     REALM_INTERNAL_BOTS :=
       [ {| bot_name := "Notification Bot"; email_template := "notification-bot@%s" |};
         {| bot_name := "Welcome Bot"; email_template := "welcome-bot@zulip.com" |} ];
     WELCOME_BOT := "welcome-bot@zulip.com" |}.

(** The ids of the messages there are lie below the next id of the sequence. *)
Definition ids_below_sequence (db : DB) : Prop :=
  Forall (fun m => (message_id m < next_message_id db)%Z) (messages db).

(** A catalog in which the greetings topic is given the name of the
    experiments topic. *)
Definition colliding_catalog : Catalog := {[ "greetings" := "experiments" ]}.

(** A marker row carries the starred flag, as a test. *)
Definition is_starred (flags_starred : Z) (row : OnboardingUserMessage) : bool :=
  Z.eqb (Z.land (oum_flags row) flags_starred) flags_starred.

(** A catalog in which the second message of the moving-messages topic is
    given the text of the first greetings message. *)
Definition echoing_catalog : Catalog :=
  {[ moving_messages_2_msgid := greetings_1_msgid ]}.

(** [send_initial_realm_messages] on the sample installation, in the language
    of the catalog [cat]. *)
Definition sample_send_in (cat : Catalog) : M unit :=
  send_initial_realm_messages sample_settings remove_single_newlines_model sample_emoji_data
    sample_discussion sample_sandbox sample_notifications
    sample_historical sample_starred cat sample_realm.

(** * Properties *)

(** ** Strings *)

Lemma in_list_elem_of (x : string) (l : list string) :
  Py.in_list x l = true <-> x ∈ l.
Proof.
  unfold Py.in_list. rewrite existsb_exists. split.
  - intros (y & Hy & Heq). apply String.eqb_eq in Heq. subst y.
    by apply list_elem_of_In.
  - intros Hx. exists x. split; [by apply list_elem_of_In | apply String.eqb_refl].
Qed.

Lemma in_list_not_elem_of (x : string) (l : list string) :
  x ∉ l -> Py.in_list x l = false.
Proof.
  intros Hx. destruct (Py.in_list x l) eqn:E; [|done].
  apply in_list_elem_of in E. done.
Qed.

Lemma eqb_not_elem_of (x y : string) : x ∉ [y] -> String.eqb x y = false.
Proof.
  intros Hx. apply String.eqb_neq. intros ->. apply Hx. by left.
Qed.

Lemma gettext_untranslated (msgid : string) : gettext untranslated msgid = msgid.
Proof. unfold gettext, untranslated. by rewrite lookup_empty. Qed.

(** ** The responder *)

Lemma select_matched (cat : Catalog) (s : string) (g : keyword_group) :
  s ∈ keywords g -> select_welcome_bot_response cat s = canned_response cat g.
Proof.
  intros Hg. destruct g; simpl in Hg;
    repeat (apply elem_of_cons in Hg as [->|Hg]; [reflexivity|]);
    by apply elem_of_nil in Hg.
Qed.

Lemma select_unmatched (cat : Catalog) (s : string) :
  (forall g, s ∉ keywords g) -> select_welcome_bot_response cat s = fallback_response cat.
Proof.
  intros Hnone. unfold select_welcome_bot_response, fallback_response.
  pose proof (in_list_not_elem_of _ _ (Hnone Apps)) as E1.
  pose proof (eqb_not_elem_of _ _ (Hnone Profile)) as E2.
  pose proof (eqb_not_elem_of _ _ (Hnone Theme)) as E3.
  pose proof (in_list_not_elem_of _ _ (Hnone Channels)) as E4.
  pose proof (in_list_not_elem_of _ _ (Hnone Topics)) as E5.
  pose proof (in_list_not_elem_of _ _ (Hnone Shortcuts)) as E6.
  pose proof (in_list_not_elem_of _ _ (Hnone Formatting)) as E7.
  pose proof (in_list_not_elem_of _ _ (Hnone Help)) as E8.
  simpl keywords in *. rewrite E1, E2, E3, E4, E5, E6, E7, E8.
  reflexivity.
Qed.

(** C1. Whatever the active language, an input that is one of a group's
    keywords gets that group's canned response, and an input that is none of
    the keywords gets the fallback; the function answers every input, and in
    the source language the answer is always a text, the fallback being the
    did-not-understand message followed by the list of commands. *)
Theorem select_welcome_bot_response_by_keyword (cat : Catalog) (s : string) :
  (forall g, s ∈ keywords g ->
             select_welcome_bot_response cat s = canned_response cat g) /\
  ((forall g, s ∉ keywords g) ->
   select_welcome_bot_response cat s = fallback_response cat) /\
  (exists text, select_welcome_bot_response untranslated s = inr text) /\
  fallback_response untranslated =
    inr ("
I’m sorry, I did not understand your message. Please try
one of the following commands: " +:+ bot_commands false +:+ "
").
Proof.
  split; [|split; [|split]].
  - intros g Hg. destruct g; simpl in Hg;
      repeat (apply elem_of_cons in Hg as [->|Hg]; [reflexivity|]);
      by apply elem_of_nil in Hg.
  - apply select_unmatched.
  - unfold select_welcome_bot_response.
    repeat match goal with
           | |- context [if ?b then _ else _] => destruct b
           end;
      rewrite ?gettext_untranslated; eexists; try reflexivity; vm_compute; reflexivity.
  - vm_compute. reflexivity.
Qed.

(** C1, at a keyword and at an input that is no keyword. *)
Lemma select_welcome_bot_response_by_keyword_witness :
  select_welcome_bot_response untranslated "apps" = inr apps_msgid /\
  select_welcome_bot_response untranslated "good morning" = fallback_response untranslated.
Proof.
  split.
  - apply (proj1 (select_welcome_bot_response_by_keyword untranslated "apps") Apps).
    apply (bool_decide_unpack _). vm_compute. exact I.
  - apply (proj1 (proj2 (select_welcome_bot_response_by_keyword untranslated "good morning"))).
    intros g. destruct g; apply (bool_decide_unpack _); vm_compute; exact I.
Defined.

(** ** The reply of the Welcome Bot *)

Section Reply.

Variable settings : Settings.
Variable str_lower : string -> string.
Variable remove_single_newlines : string -> string.

(** C9, as the code has it, for whatever [str.lower] does.  The content is
    lower-cased before the reply is selected, and the reply sent is the
    selected text passed through [remove_single_newlines]: one direct message
    from the Welcome Bot to the sender, with external notifications disabled.
    Where [str.lower] lower-cases ASCII text letter by letter, a content in
    ASCII that is a keyword in any mix of cases gets the canned response of
    the keyword's group: APPS and Apps are lower-cased to apps. *)
Theorem send_welcome_bot_response_reply
    (cat : Catalog) (send_request : SendMessageRequest) (db : DB)
    (welcome_bot : UserProfile) (reply : string) :
  get_system_bot (WELCOME_BOT settings) (realm_id (req_realm send_request)) db
    = (inr welcome_bot, db) ->
  select_welcome_bot_response cat (str_lower (req_content send_request)) = inr reply ->
  (exists db',
     send_welcome_bot_response settings str_lower remove_single_newlines cat send_request db
       = (inr tt, db') /\
     messages db' =
       messages db ++
         [direct_message (next_message_id db) welcome_bot (req_sender send_request)
            (remove_single_newlines reply)]) /\
  ((forall s, Py.is_ascii s = true -> str_lower s = Py.lower s) ->
   (forall g,
      Py.is_ascii (req_content send_request) = true ->
      Py.lower (req_content send_request) ∈ keywords g ->
      canned_response cat g = inr reply) /\
   str_lower "APPS" = "apps" /\ str_lower "Apps" = "apps").
Proof.
  intros Hbot Hreply. split.
  - unfold send_welcome_bot_response, bind, lift.
    rewrite Hbot, Hreply. simpl. eexists. split; reflexivity.
  - intros Hascii. split; [|split].
    + intros g Hcontent Hg.
      rewrite (Hascii _ Hcontent) in Hreply.
      by rewrite <- (select_matched cat _ g Hg).
    + by rewrite Hascii.
    + by rewrite Hascii.
Qed.

End Reply.

(** C9, on the sample installation, where the content APPS is ASCII and
    [Py.lower] is [str.lower]: the reply to APPS is the apps response with
    its single newlines removed. *)
Lemma send_welcome_bot_response_reply_witness :
  (exists db',
     send_welcome_bot_response sample_settings Py.lower remove_single_newlines_model
       untranslated sample_request sample_db = (inr tt, db') /\
     messages db' =
       [direct_message 100 (sample_bot 6 "welcome-bot@zulip.com" sample_realm) sample_user
          "You can [download](/apps/) the [mobile and desktop apps](/apps/). Zulip also works great in a browser."]) /\
  canned_response untranslated Apps = inr apps_msgid /\
  Py.lower "APPS" = "apps" /\ Py.lower "Apps" = "apps".
Proof.
  pose proof (send_welcome_bot_response_reply sample_settings Py.lower
                remove_single_newlines_model untranslated sample_request sample_db
                (sample_bot 6 "welcome-bot@zulip.com" sample_realm) apps_msgid
                eq_refl eq_refl) as [Hsent Hcase].
  split; [exact Hsent|].
  destruct (Hcase (fun s _ => eq_refl)) as [Hgroup Hexamples].
  split; [|exact Hexamples].
  apply (Hgroup Apps eq_refl).
  apply (bool_decide_unpack _). vm_compute. exact I.
Defined.

(** C9 as the specification states it fails on the sample installation, for
    the content APPS: the reply is sent, the text selected for the
    lower-cased content is the apps response, and the content of the reply is
    not that text, since the text goes through [remove_single_newlines]
    first. *)
Lemma reply_content_is_not_the_selected_text :
  exists (db' : DB) (m : Message) (reply : string),
    send_welcome_bot_response sample_settings Py.lower remove_single_newlines_model
      untranslated sample_request sample_db = (inr tt, db') /\
    select_welcome_bot_response untranslated (Py.lower (req_content sample_request))
      = inr reply /\
    last (messages db') = Some m /\
    content m <> reply.
Proof.
  exists (snd (send_welcome_bot_response sample_settings Py.lower
                 remove_single_newlines_model untranslated sample_request sample_db)),
    (direct_message 100 (sample_bot 6 "welcome-bot@zulip.com" sample_realm) sample_user
       (remove_single_newlines_model apps_msgid)),
    apps_msgid.
  split; [vm_compute; reflexivity|]. split; [vm_compute; reflexivity|].
  split; [vm_compute; reflexivity|].
  intros Hsame. vm_compute in Hsame. discriminate Hsame.
Qed.

(** ** The initial direct message *)

Section InitialDirectMessage.

Variable settings : Settings.
Variable catalogs : string -> Catalog.
Variable remove_single_newlines : string -> string.
Variables ORG_TYPE_education_nonprofit_id ORG_TYPE_education_id : Z.

Let education := education_organization ORG_TYPE_education_nonprofit_id ORG_TYPE_education_id.
Let built := initial_direct_message_content catalogs
               ORG_TYPE_education_nonprofit_id ORG_TYPE_education_id.

(** In the source language the message is the template with its three
    optional paragraphs chosen by the organization type, the administrator
    flag, and the owner flag with the deletion date. *)
Lemma initial_direct_message_content_untranslated (user : UserProfile) :
  catalogs (default_language user) = untranslated ->
  built user =
    inr (initial_direct_message_text
           (education user)
           (is_realm_admin user)
           (is_realm_owner user
            && bool_decide (demo_organization_scheduled_deletion_date (realm user) <> None))).
Proof.
  intros Hcat. unfold built, initial_direct_message_content, education. rewrite Hcat.
  destruct (education_organization _ _ user), (is_realm_admin user),
    (is_realm_owner user && _)%bool; vm_compute; reflexivity.
Qed.

Lemma education_organization_category (user : UserProfile) :
  education user = true <->
  org_type (realm user) = ORG_TYPE_education_nonprofit_id \/
  org_type (realm user) = ORG_TYPE_education_id.
Proof.
  unfold education, education_organization.
  rewrite orb_true_iff, !Z.eqb_eq. reflexivity.
Qed.

Lemma is_demo_owner (user : UserProfile) :
  (is_realm_owner user
   && bool_decide (demo_organization_scheduled_deletion_date (realm user) <> None))%bool = true
  <-> is_realm_owner user = true /\
      demo_organization_scheduled_deletion_date (realm user) <> None.
Proof.
  rewrite andb_true_iff, bool_decide_eq_true. reflexivity.
Qed.

(** C3. For a user whose language has no translations, the message built
    has the class guide link exactly when the organization type is one of the
    two education categories (and the general guide link exactly when it is
    not); it has the organization-setup paragraph exactly for an
    administrator, with the class setup link exactly for an administrator of
    an education organization; and it has the demo-deletion warning exactly
    for an owner of an organization with a deletion date.  When the Welcome
    Bot exists, the function sends that text, through
    [remove_single_newlines], as one direct message to the user and returns
    its id. *)
Theorem initial_direct_message_personalised
    (user welcome_bot : UserProfile) (db : DB) :
  catalogs (default_language user) = untranslated ->
  get_system_bot (WELCOME_BOT settings) (realm_id (realm user)) db = (inr welcome_bot, db) ->
  exists text,
    built user = inr text /\
    (Py.contains "[Using Zulip for a class guide](/help/using-zulip-for-a-class)" text = true
     <-> (org_type (realm user) = ORG_TYPE_education_nonprofit_id \/
          org_type (realm user) = ORG_TYPE_education_id)) /\
    (Py.contains "[Getting started guide](/help/getting-started-with-zulip)" text = true
     <-> ~ (org_type (realm user) = ORG_TYPE_education_nonprofit_id \/
            org_type (realm user) = ORG_TYPE_education_id)) /\
    (Py.contains "We also have a guide for" text = true
     <-> is_realm_admin user = true) /\
    (Py.contains "[Setting up Zulip for a class](/help/setting-up-zulip-for-a-class)" text = true
     <-> is_realm_admin user = true /\
         (org_type (realm user) = ORG_TYPE_education_nonprofit_id \/
          org_type (realm user) = ORG_TYPE_education_id)) /\
    (Py.contains "
Note that this is a [demo organization](/help/demo-organizations) and
will be **automatically deleted** in 30 days.
" text = true
     <-> is_realm_owner user = true /\
         demo_organization_scheduled_deletion_date (realm user) <> None) /\
    exists db',
      send_initial_direct_message settings catalogs remove_single_newlines
        ORG_TYPE_education_nonprofit_id ORG_TYPE_education_id user db
        = (inr (next_message_id db), db') /\
      messages db' =
        messages db ++
          [direct_message (next_message_id db) welcome_bot user (remove_single_newlines text)].
Proof.
  intros Hcat Hbot.
  pose proof (initial_direct_message_content_untranslated user Hcat) as Hbuilt.
  eexists. split; [exact Hbuilt|].
  rewrite <- education_organization_category, <- is_demo_owner.
  repeat match goal with
         | |- (_ <-> _) /\ _ =>
             split;
             [ destruct (education user), (is_realm_admin user),
                 (is_realm_owner user && _)%bool; vm_compute; intuition congruence | ]
         end.
  unfold send_initial_direct_message, bind, lift. unfold built in Hbuilt.
  rewrite Hbuilt, Hbot.
  simpl. eexists. split; reflexivity.
Qed.

End InitialDirectMessage.

(** C3, on the sample installation: the owner and administrator of an
    education organization that is scheduled for deletion. *)
Lemma initial_direct_message_personalised_witness :
  exists text,
    initial_direct_message_content sample_catalogs 30 35 sample_user = inr text /\
    Py.contains "[Using Zulip for a class guide](/help/using-zulip-for-a-class)" text = true /\
    Py.contains "We also have a guide for" text = true /\
    Py.contains "will be **automatically deleted** in 30 days." text = true.
Proof.
  destruct (initial_direct_message_personalised sample_settings sample_catalogs
              remove_single_newlines_model 30 35 sample_user
              (sample_bot 6 "welcome-bot@zulip.com" sample_realm) sample_db
              eq_refl eq_refl) as (text & Hbuilt & Hclass & _ & Hsetup & _).
  exists text. split; [exact Hbuilt|]. split; [|split].
  - apply Hclass. right. reflexivity.
  - apply Hsetup. reflexivity.
  - vm_compute in Hbuilt. injection Hbuilt as <-. vm_compute. reflexivity.
Defined.

(** ** The list of commands *)

(** C10. [bot_commands] is the comma-separated list of the seven commands
    between backticks, with help as the eighth unless it is left out, and a
    period at the end.  In every language the help reply is formatted with the
    list without help, and the fallback reply with the list that has it; in
    the source language the help reply shows the seven commands and no help
    entry, and the fallback reply and the initial direct message show all
    eight. *)
Theorem bot_commands_listing :
  bot_commands false =
    "`apps`, `profile`, `theme`, `channels`, `topics`, `message formatting`, `keyboard shortcuts`, `help`." /\
  bot_commands true =
    "`apps`, `profile`, `theme`, `channels`, `topics`, `message formatting`, `keyboard shortcuts`." /\
  (forall cat,
     select_welcome_bot_response cat "help" =
       Py.format (gettext cat help_msgid) [("bot_commands", bot_commands true)]) /\
  (forall cat s,
     (forall g, s ∉ keywords g) ->
     select_welcome_bot_response cat s =
       Py.format (gettext cat fallback_msgid) [("bot_commands", bot_commands false)]) /\
  (exists text,
     select_welcome_bot_response untranslated "help" = inr text /\
     Py.contains (bot_commands true) text = true /\
     Py.contains "`help`" text = false) /\
  (exists text,
     fallback_response untranslated = inr text /\
     Py.contains (bot_commands false) text = true) /\
  (forall catalogs education_nonprofit_id education_id user,
     catalogs (default_language user) = untranslated ->
     exists text,
       initial_direct_message_content catalogs education_nonprofit_id education_id user
         = inr text /\
       Py.contains (bot_commands false) text = true).
Proof.
  split; [reflexivity|]. split; [reflexivity|]. split; [reflexivity|].
  split; [exact select_unmatched|].
  split; [eexists; split; [vm_compute; reflexivity|split; vm_compute; reflexivity]|].
  split; [eexists; split; [vm_compute; reflexivity|vm_compute; reflexivity]|].
  intros catalogs e1 e2 user Hcat.
  rewrite (initial_direct_message_content_untranslated _ _ _ user Hcat).
  eexists. split; [reflexivity|].
  destruct (education_organization _ _ user), (is_realm_admin user),
    (is_realm_owner user && _)%bool; vm_compute; reflexivity.
Qed.

(** C10, at an input that is no keyword and at the sample user. *)
Lemma bot_commands_listing_witness :
  select_welcome_bot_response untranslated "good morning" =
    Py.format fallback_msgid [("bot_commands", bot_commands false)] /\
  exists text,
    initial_direct_message_content sample_catalogs 30 35 sample_user = inr text /\
    Py.contains (bot_commands false) text = true.
Proof.
  destruct bot_commands_listing as (_ & _ & _ & Hfallback & _ & _ & Hdirect).
  split.
  - apply (Hfallback untranslated "good morning").
    intros g. destruct g; apply (bool_decide_unpack _); vm_compute; exact I.
  - apply (Hdirect sample_catalogs 30%Z 35%Z sample_user). reflexivity.
Defined.

(** ** Sending and bookkeeping *)

Lemma stored_length (first_id : Z) (reqs : list SendMessageRequest) :
  length (stored first_id reqs) = length reqs.
Proof.
  revert first_id. induction reqs as [|req reqs IH]; intros first_id; simpl; [done|].
  by rewrite IH.
Qed.

Lemma stored_requests (first_id : Z) (reqs : list SendMessageRequest) :
  map message_request (stored first_id reqs) = reqs.
Proof.
  revert first_id. induction reqs as [|req reqs IH]; intros first_id; simpl; [done|].
  by rewrite IH.
Qed.

Lemma stored_lookup (first_id : Z) (reqs : list SendMessageRequest) (i : nat) (m : Message) :
  stored first_id reqs !! i = Some m ->
  message_id m = (first_id + Z.of_nat i)%Z /\ reqs !! i = Some (message_request m).
Proof.
  revert first_id i. induction reqs as [|req reqs IH]; intros first_id i; simpl; [done|].
  destruct i as [|i]; simpl.
  - intros [= <-]. simpl. split; [lia|done].
  - intros Hm. apply IH in Hm as [-> Hreq]. split; [lia|done].
Qed.

Lemma stored_ids_NoDup (first_id : Z) (reqs : list SendMessageRequest) :
  NoDup (map message_id (stored first_id reqs)).
Proof.
  revert first_id. induction reqs as [|req reqs IH]; intros first_id; simpl.
  - constructor.
  - constructor; [|apply IH].
    intros Hin. apply list_elem_of_fmap in Hin as (m & Hid & Hm).
    apply list_elem_of_lookup in Hm as (i & Hm).
    apply stored_lookup in Hm as [Hid' _]. lia.
Qed.

(** [do_send_messages] stores one row per request, in order, with consecutive
    ids, and answers their ids. *)
Lemma do_send_messages_run (reqs : list SendMessageRequest) (db : DB) :
  do_send_messages reqs db =
    (inr (map (fun m => {| sent_message_id := message_id m |})
              (stored (next_message_id db) reqs)),
     {| realms := realms db;
        user_profiles := user_profiles db;
        messages := messages db ++ stored (next_message_id db) reqs;
        onboarding_user_messages := onboarding_user_messages db;
        reactions := reactions db;
        next_message_id := next_message_id db + Z.of_nat (length reqs);
        next_user_id := next_user_id db |}).
Proof.
  revert db. induction reqs as [|req reqs IH]; intros db.
  - destruct db. simpl. unfold ret. by rewrite app_nil_r, Z.add_0_r.
  - cbn [do_send_messages]. unfold bind at 1. unfold insert_message at 1.
    unfold bind at 1. rewrite IH. unfold ret. cbn [next_message_id messages].
    f_equal. f_equal; [by rewrite <- app_assoc | simpl length; lia].
Qed.

(** The loop over the declared messages adds, to the ids it starts with, the
    id at the position of each entry whose topic was not seen before. *)
Lemma first_message_ids_from_spec (remaining : list WelcomeMessage) :
  forall (index : nat) (message_ids : list Z) (seen_topics : gset string)
         (firsts result : gset Z),
    first_message_ids_from index remaining message_ids seen_topics firsts = inr result ->
    forall id,
      id ∈ result <->
      id ∈ firsts \/
      exists j w,
        remaining !! j = Some w /\
        message_ids !! (index + j)%nat = Some id /\
        (wm_topic_name w ∉ seen_topics) /\
        (forall j' w', (j' < j)%nat -> remaining !! j' = Some w' ->
                       wm_topic_name w' <> wm_topic_name w).
Proof.
  induction remaining as [|message rest IH]; intros index ids seen firsts result Hrun id.
  - simpl in Hrun. injection Hrun as <-. split; [by left|].
    intros [H|(j & w & Hw & _)]; done.
  - cbn [first_message_ids_from] in Hrun. case_bool_decide as Hseen.
    + destruct (ids !! index) as [id0|] eqn:Hid0; [|done].
      rewrite (IH _ _ _ _ _ Hrun id). split.
      * intros [Hin|(j & w & Hw & Hid & Hfresh & Hearlier)].
        -- apply elem_of_union in Hin as [Hin|Hin]; [by left|].
           apply elem_of_singleton in Hin as ->. right. exists 0%nat, message.
           rewrite Nat.add_0_r. repeat split; [done..|]. intros j' w' Hj'. lia.
        -- right. exists (S j), w. rewrite Nat.add_succ_r. repeat split; [done..| |].
           ++ set_solver.
           ++ intros [|j'] w' Hj' Hw'; simpl in Hw'.
              ** injection Hw' as <-. set_solver.
              ** apply (Hearlier j'); [lia|done].
      * intros [Hin|(j & w & Hw & Hid & Hfresh & Hearlier)]; [left; set_solver|].
        destruct j as [|j]; simpl in Hw.
        -- injection Hw as <-. rewrite Nat.add_0_r in Hid. left.
           rewrite Hid0 in Hid. injection Hid as ->. set_solver.
        -- right. exists j, w. rewrite Nat.add_succ_r in Hid. repeat split; [done..| |].
           ++ pose proof (Hearlier 0%nat message ltac:(lia) eq_refl). set_solver.
           ++ intros j' w' Hj' Hw'. apply (Hearlier (S j')); [lia|done].
    + rewrite (IH _ _ _ _ _ Hrun id). split.
      * intros [Hin|(j & w & Hw & Hid & Hfresh & Hearlier)]; [by left|].
        right. exists (S j), w. rewrite Nat.add_succ_r. repeat split; [done..|].
        intros [|j'] w' Hj' Hw'; simpl in Hw'.
        -- injection Hw' as <-. intros Heq. rewrite Heq in Hseen. done.
        -- apply (Hearlier j'); [lia|done].
      * intros [Hin|(j & w & Hw & Hid & Hfresh & Hearlier)]; [by left|].
        destruct j as [|j]; simpl in Hw.
        -- injection Hw as <-. done.
        -- right. exists j, w. rewrite Nat.add_succ_r in Hid. repeat split; [done..|].
           intros j' w' Hj' Hw'. apply (Hearlier (S j')); [lia|done].
Qed.

(** With an id for every declared message, the loop raises no IndexError. *)
Lemma first_message_ids_from_total (remaining : list WelcomeMessage) :
  forall (index : nat) (message_ids : list Z) (seen_topics : gset string) (firsts : gset Z),
    (index + length remaining <= length message_ids)%nat ->
    exists result,
      first_message_ids_from index remaining message_ids seen_topics firsts = inr result.
Proof.
  induction remaining as [|message rest IH]; intros index ids seen firsts Hlen.
  - eexists. reflexivity.
  - cbn [first_message_ids_from]. simpl in Hlen. case_bool_decide.
    + destruct (lookup_lt_is_Some_2 ids index ltac:(lia)) as [id0 ->].
      apply IH. lia.
    + apply IH. lia.
Qed.

(** With distinct ids, one per declared message, the id at a position is in
    the set exactly when that entry is the first of its topic. *)
Lemma first_message_ids_first_of_topic
    (l : list WelcomeMessage) (message_ids : list Z) (result : gset Z) (i : nat) (id : Z) :
  NoDup message_ids ->
  length message_ids = length l ->
  first_message_ids_from 0 l message_ids ∅ ∅ = inr result ->
  message_ids !! i = Some id ->
  id ∈ result <-> first_of_its_topic l i.
Proof.
  intros Hnodup Hlen Hrun Hid.
  rewrite (first_message_ids_from_spec _ _ _ _ _ _ Hrun id). split.
  - intros [Hin|(j & w & Hw & Hjd & _ & Hearlier)]; [set_solver|].
    simpl in Hjd. assert (i = j) as <- by exact (NoDup_lookup _ _ _ _ Hnodup Hid Hjd).
    intros j' w0 w' Hj' Hw' Hw0. rewrite Hw in Hw0. injection Hw0 as <-.
    by apply (Hearlier j').
  - intros Hfirst. right.
    destruct (lookup_lt_is_Some_2 l i) as [w Hw].
    { rewrite <- Hlen. by apply lookup_lt_Some in Hid. }
    exists i, w. repeat split; [done..|set_solver|].
    intros j' w' Hj' Hw'. by apply (Hfirst j' w w').
Qed.

Lemma stored_lookup_request (first_id : Z) (reqs : list SendMessageRequest)
    (i : nat) (req : SendMessageRequest) :
  reqs !! i = Some req ->
  stored first_id reqs !! i =
    Some {| message_id := first_id + Z.of_nat i; message_request := req |}.
Proof.
  revert first_id i. induction reqs as [|r reqs IH]; intros first_id i; [done|].
  destruct i as [|i]; simpl.
  - intros [= ->]. by rewrite Z.add_0_r.
  - intros Hreq. rewrite (IH _ _ Hreq). do 2 f_equal. lia.
Qed.

(** [first()] answers a row of a query that has one. *)
Lemma first_by_pk_elem_of (rows : list Message) (m : Message) :
  m ∈ rows -> exists m', first_by_pk rows = Some m' /\ m' ∈ rows.
Proof.
  revert m. induction rows as [|m0 rows IH]; intros m Hm; [by apply elem_of_nil in Hm|].
  simpl. destruct (first_by_pk rows) as [m1|] eqn:Hfirst.
  - assert (m1 ∈ rows) as Hm1.
    { destruct rows as [|m2 rows']; [done|].
      destruct (IH m2 ltac:(by left)) as (m' & [= <-] & Hin). done. }
    destruct (Z.leb _ _); eexists; (split; [reflexivity|]); [by left | by right].
  - eexists. split; [reflexivity | by left].
Qed.

(** The lookup of a system bot reads the database and raises nothing but
    [DoesNotExist]. *)
Lemma get_system_bot_result (bot_email : string) (realm_id' : Z) (db : DB) :
  (exists bot, get_system_bot bot_email realm_id' db = (inr bot, db)) \/
  get_system_bot bot_email realm_id' db = (inl Py.DoesNotExist, db).
Proof.
  unfold get_system_bot. destruct (List.find _ _); [left; by eexists | by right].
Qed.

(** Formatting raises nothing but [KeyError] and [ValueError]. *)
Lemma format_from_exn (kw : Py.kwargs) (s : string) :
  forall (state : Py.scan) (err : Py.exn),
    Py.format_from kw state s = inl err -> err = Py.KeyError \/ err = Py.ValueError.
Proof.
  induction s as [|c s IH]; intros state err.
  - destruct state; simpl; intros [= <-]; by right.
  - destruct state as [| | |name]; cbn [Py.format_from];
      repeat match goal with
             | |- context [if ?b then _ else _] => destruct b
             | |- context [match Py.kwarg ?n kw with _ => _ end] => destruct (Py.kwarg n kw)
             | |- context [match Py.format_from kw ?st s with _ => _ end] =>
                 destruct (Py.format_from kw st s) eqn:?
             end;
      try done; try (intros [= <-]; eauto); try apply IH.
Qed.

(** ** The initial messages of a realm *)

Section RealmMessages.

Variable settings : Settings.
Variable remove_single_newlines : string -> string.
Variable get_emoji_data : Z -> string -> Py.exn + EmojiData.
Variables discussion sandbox notifications : string.
Variables flags_historical flags_starred : Z.

Local Abbreviation declared := (declared_welcome_messages discussion sandbox notifications).
Local Abbreviation body :=
  (send_initial_realm_messages_body settings remove_single_newlines get_emoji_data
     discussion sandbox notifications flags_historical flags_starred).
Local Abbreviation rows_of := (onboarding_rows flags_historical flags_starred).

(** The requests prepared for the declared messages. *)
Local Abbreviation prepared realm' bot l :=
  (map (fun message =>
          internal_prep_stream_message_by_name realm' bot
            (wm_channel_name message) (wm_topic_name message)
            (remove_single_newlines (wm_content message))) l).

(** When the four formatted contents can be formatted, the list is the twelve
    declared entries. *)
Lemma welcome_messages_declared (cat : Catalog) (l : list WelcomeMessage) :
  welcome_messages discussion sandbox notifications cat = inr l ->
  exists m1 e1 e2 w1, l = declared cat m1 e1 e2 w1.
Proof.
  unfold welcome_messages, and_then. intros Hl.
  repeat match type of Hl with
         | match ?r with inl _ => _ | inr _ => _ end = _ => destruct r; [done|]
         end.
  injection Hl as <-. do 4 eexists. reflexivity.
Qed.

(** The run of the function's body: after the Welcome Bot is found and the
    contents are formatted, the twelve messages and their marker rows are
    written and the lookup by content finds a message [g]; the reaction is
    written when the emoji lookup answers, and its exception is raised
    otherwise, with the messages and markers already written. *)
Lemma send_initial_realm_messages_body_run
    (cat : Catalog) (realm' : Realm) (db : DB) (bot : UserProfile) (l : list WelcomeMessage) :
  get_system_bot (WELCOME_BOT settings) (realm_id realm') db = (inr bot, db) ->
  welcome_messages discussion sandbox notifications cat = inr l ->
  let new := stored (next_message_id db) (prepared realm' bot l) in
  let message_ids := map message_id new in
  exists firsts g,
    first_message_ids_from 0 l message_ids ∅ ∅ = inr firsts /\
    g ∈ messages db ++ new /\
    message_id g ∈ message_ids /\
    content g = remove_single_newlines (content1_of_greetings_topic_name cat) /\
    body cat realm' db =
      match get_emoji_data (realm_id realm') "wave" with
      | inr e =>
          (inr tt, seeded db new (rows_of realm' message_ids firsts) [wave_reaction bot g e])
      | inl err =>
          (inl err, seeded db new (rows_of realm' message_ids firsts) [])
      end.
Proof.
  intros Hbot Hl new message_ids.
  assert (length message_ids = length l) as Hlen.
  { unfold message_ids, new. by rewrite length_map, stored_length, length_map. }
  assert (length new = length (prepared realm' bot l)) as Hnew by apply stored_length.
  destruct (first_message_ids_from_total l 0 message_ids ∅ ∅ ltac:(simpl; lia))
    as [firsts Hfirsts].
  (* the stored greetings message passes the filter of the lookup *)
  destruct (welcome_messages_declared cat l Hl) as (m1 & e1 & e2 & w1 & Hdecl).
  assert (exists m, new !! 7%nat = Some m /\
                    content m = remove_single_newlines (content1_of_greetings_topic_name cat))
    as (m7 & Hm7 & Hcontent7).
  { eexists. split.
    - unfold new. apply stored_lookup_request. rewrite Hdecl. reflexivity.
    - reflexivity. }
  set (keep := fun m : Message =>
         (existsb (Z.eqb (message_id m)) message_ids
          && String.eqb (content m)
               (remove_single_newlines (content1_of_greetings_topic_name cat)))%bool).
  assert (m7 ∈ List.filter keep (messages db ++ new)) as Hkept.
  { apply list_elem_of_In, filter_In. split.
    - apply list_elem_of_In, elem_of_app. right. by eapply list_elem_of_lookup_2.
    - unfold keep. apply andb_true_iff. split; [|by apply String.eqb_eq].
      apply existsb_exists. exists (message_id m7). split; [|apply Z.eqb_refl].
      apply list_elem_of_In, list_elem_of_fmap. exists m7. split; [done|].
      by eapply list_elem_of_lookup_2. }
  destruct (first_by_pk_elem_of _ _ Hkept) as (g & Hfirst & Hg).
  apply list_elem_of_In, filter_In in Hg as [Hg Hkeep].
  apply andb_true_iff in Hkeep as [Hid Hcontent].
  apply existsb_exists in Hid as (id & Hid & Heq). apply Z.eqb_eq in Heq. subst id.
  apply String.eqb_eq in Hcontent.
  exists firsts, g. split; [done|]. split; [by apply list_elem_of_In|].
  split; [by apply list_elem_of_In|]. split; [done|].
  unfold send_initial_realm_messages_body, bind at 1. rewrite Hbot.
  unfold bind at 1, lift at 1. rewrite Hl.
  unfold bind at 1. rewrite do_send_messages_run.
  rewrite map_map. cbn [sent_message_id]. fold new.
  change (map (fun x : Message => message_id x) new) with message_ids.
  unfold bind at 1, lift at 1. rewrite Hfirsts.
  unfold bind at 1, bulk_create at 1. cbn -[first_message_with new message_ids].
  unfold bind at 1, first_message_with at 1. cbn [messages]. fold keep. rewrite Hfirst.
  unfold bind, lift. destruct (get_emoji_data _ _) as [err|e].
  - unfold seeded. rewrite app_nil_r, Hnew. reflexivity.
  - unfold do_add_reaction, seeded. rewrite Hnew. reflexivity.
Qed.

Local Abbreviation send :=
  (send_initial_realm_messages settings remove_single_newlines get_emoji_data
     discussion sandbox notifications flags_historical flags_starred).

(** The run of the function when every lookup answers. *)
Lemma send_initial_realm_messages_run
    (cat : Catalog) (realm' : Realm) (db : DB) (bot : UserProfile)
    (l : list WelcomeMessage) (e : EmojiData) :
  get_system_bot (WELCOME_BOT settings) (realm_id realm') db = (inr bot, db) ->
  welcome_messages discussion sandbox notifications cat = inr l ->
  get_emoji_data (realm_id realm') "wave" = inr e ->
  let new := stored (next_message_id db) (prepared realm' bot l) in
  let message_ids := map message_id new in
  exists firsts g,
    first_message_ids_from 0 l message_ids ∅ ∅ = inr firsts /\
    g ∈ messages db ++ new /\
    message_id g ∈ message_ids /\
    content g = remove_single_newlines (content1_of_greetings_topic_name cat) /\
    send cat realm' db =
      (inr tt, seeded db new (rows_of realm' message_ids firsts) [wave_reaction bot g e]).
Proof.
  intros Hbot Hl He new message_ids.
  destruct (send_initial_realm_messages_body_run cat realm' db bot l Hbot Hl)
    as (firsts & g & Hfirsts & Hg & Hid & Hcontent & Hrun).
  exists firsts, g. repeat split; [done..|].
  unfold send_initial_realm_messages, atomic. rewrite Hrun, He. reflexivity.
Qed.

Lemma rows_of_message_ids (realm' : Realm) (message_ids : list Z) (firsts : gset Z) :
  map oum_message_id (rows_of realm' message_ids firsts) = message_ids.
Proof.
  unfold onboarding_rows. rewrite map_map. simpl. apply map_id.
Qed.

Lemma lor_has_left (a b : Z) : Z.land (Z.lor a b) a = a.
Proof.
  apply Z.bits_inj'. intros n Hn. rewrite Z.land_spec, Z.lor_spec.
  destruct (Z.testbit a n), (Z.testbit b n); reflexivity.
Qed.

Lemma lor_has_right (a b : Z) : Z.land (Z.lor a b) b = b.
Proof. rewrite Z.lor_comm. apply lor_has_left. Qed.

(** Every marker row is historical. *)
Lemma rows_of_historical (realm' : Realm) (message_ids : list Z) (firsts : gset Z) :
  Forall (has_flag flags_historical) (rows_of realm' message_ids firsts).
Proof.
  unfold onboarding_rows. apply Forall_fmap, Forall_forall. intros id _.
  unfold has_flag. simpl. case_bool_decide; [apply lor_has_left | apply Z.land_diag].
Qed.

(** With the two flags on different bits, a marker row is starred exactly
    when its message id is one of the first ids of a topic. *)
Lemma rows_of_starred
    (realm' : Realm) (message_ids : list Z) (firsts : gset Z)
    (i : nat) (row : OnboardingUserMessage) :
  Z.land flags_historical flags_starred = 0%Z ->
  flags_starred <> 0%Z ->
  rows_of realm' message_ids firsts !! i = Some row ->
  exists id, message_ids !! i = Some id /\ oum_message_id row = id /\
             (has_flag flags_starred row <-> id ∈ firsts).
Proof.
  intros Hdisjoint Hstarred Hrow. unfold onboarding_rows in Hrow.
  rewrite list_lookup_fmap in Hrow.
  destruct (message_ids !! i) as [id|]; [|done]. injection Hrow as <-.
  exists id. split; [done|]. split; [done|].
  unfold has_flag. simpl. case_bool_decide as Hin.
  - split; [done|]. intros _. apply lor_has_right.
  - split; [|done]. rewrite Hdisjoint. intros Hzero. by destruct Hstarred.
Qed.

(** C2. When the Welcome Bot and the wave emoji are found and the contents
    are formatted, the function stores exactly one message per declared
    entry, in the declared order (the list is the twelve entries of the
    source, the three of the welcome topic last) and with ascending ids, and
    one marker row per stored message, in the same order; every row is
    historical, and, the two flags being different bits, a row is starred
    exactly when its message is the first of the list with its topic. *)
Theorem send_initial_realm_messages_bookkeeping
    (cat : Catalog) (realm' : Realm) (db : DB) (bot : UserProfile)
    (l : list WelcomeMessage) (e : EmojiData) :
  get_system_bot (WELCOME_BOT settings) (realm_id realm') db = (inr bot, db) ->
  welcome_messages discussion sandbox notifications cat = inr l ->
  get_emoji_data (realm_id realm') "wave" = inr e ->
  Z.land flags_historical flags_starred = 0%Z ->
  flags_starred <> 0%Z ->
  exists db' new rows,
    send cat realm' db = (inr tt, db') /\
    (exists m1 e1 e2 w1, l = declared cat m1 e1 e2 w1) /\
    messages db' = messages db ++ new /\
    map message_request new = prepared realm' bot l /\
    (forall i m, new !! i = Some m -> message_id m = (next_message_id db + Z.of_nat i)%Z) /\
    onboarding_user_messages db' = onboarding_user_messages db ++ rows /\
    map oum_message_id rows = map message_id new /\
    Forall (has_flag flags_historical) rows /\
    (forall i row, rows !! i = Some row ->
                   has_flag flags_starred row <-> first_of_its_topic l i).
Proof.
  intros Hbot Hl He Hdisjoint Hstarred.
  destruct (send_initial_realm_messages_run cat realm' db bot l e Hbot Hl He)
    as (firsts & g & Hfirsts & _ & _ & _ & Hrun).
  set (new := stored (next_message_id db) (prepared realm' bot l)) in *.
  set (message_ids := map message_id new) in *.
  exists (seeded db new (rows_of realm' message_ids firsts) [wave_reaction bot g e]),
    new, (rows_of realm' message_ids firsts).
  split; [exact Hrun|]. split; [by eapply welcome_messages_declared|].
  split; [reflexivity|]. split; [apply stored_requests|].
  split; [intros i m Hm; by apply stored_lookup in Hm as [-> _]|].
  split; [reflexivity|]. split; [apply rows_of_message_ids|].
  split; [apply rows_of_historical|].
  intros i row Hrow.
  destruct (rows_of_starred realm' message_ids firsts i row Hdisjoint Hstarred Hrow)
    as (id & Hid & _ & ->).
  apply (first_message_ids_first_of_topic l message_ids); [apply stored_ids_NoDup| |done..].
  unfold message_ids, new. by rewrite length_map, stored_length, length_map.
Qed.

(** C8. The declared list has an entry for each of the three default
    channels, and after a run each of them holds a message of the run. *)
Theorem every_default_channel_receives_a_message
    (cat : Catalog) (realm' : Realm) (db : DB) (bot : UserProfile)
    (l : list WelcomeMessage) (e : EmojiData) (channel : string) :
  get_system_bot (WELCOME_BOT settings) (realm_id realm') db = (inr bot, db) ->
  welcome_messages discussion sandbox notifications cat = inr l ->
  get_emoji_data (realm_id realm') "wave" = inr e ->
  channel ∈ [discussion; sandbox; notifications] ->
  (exists w, w ∈ l /\ wm_channel_name w = channel) /\
  exists db' m topic,
    send cat realm' db = (inr tt, db') /\
    m ∈ messages db' /\
    (next_message_id db <= message_id m)%Z /\
    req_recipient (message_request m) = Stream channel topic.
Proof.
  intros Hbot Hl He Hchannel.
  destruct (welcome_messages_declared cat l Hl) as (m1 & e1 & e2 & w1 & Hdecl).
  assert (exists i w, l !! i = Some w /\ wm_channel_name w = channel) as (i & w & Hw & Hname).
  { rewrite Hdecl.
    apply elem_of_cons in Hchannel as [->|Hchannel]; [exists 0%nat; eexists; by split|].
    apply elem_of_cons in Hchannel as [->|Hchannel]; [exists 2%nat; eexists; by split|].
    apply elem_of_cons in Hchannel as [->|Hchannel]; [exists 7%nat; eexists; by split|].
    by apply elem_of_nil in Hchannel. }
  split; [exists w; split; [by eapply list_elem_of_lookup_2 | done]|].
  destruct (send_initial_realm_messages_run cat realm' db bot l e Hbot Hl He)
    as (firsts & g & _ & _ & _ & _ & Hrun).
  eexists _, _, (wm_topic_name w). split; [exact Hrun|].
  assert (prepared realm' bot l !! i =
          Some (internal_prep_stream_message_by_name realm' bot (wm_channel_name w)
                  (wm_topic_name w) (remove_single_newlines (wm_content w)))) as Hreq.
  { by rewrite list_lookup_fmap, Hw. }
  pose proof (stored_lookup_request (next_message_id db) _ _ _ Hreq) as Hm.
  split; [|split].
  - simpl. apply elem_of_app. right. by eapply list_elem_of_lookup_2.
  - simpl. lia.
  - simpl. by rewrite Hname.
Qed.

Lemma welcome_messages_exn (cat : Catalog) (err : Py.exn) :
  welcome_messages discussion sandbox notifications cat = inl err ->
  err = Py.KeyError \/ err = Py.ValueError.
Proof.
  unfold welcome_messages, and_then. intros Herr.
  repeat match type of Herr with
         | match ?r with inl _ => _ | inr _ => _ end = _ =>
             destruct r eqn:?;
             [injection Herr as <-; by eapply format_from_exn|]
         end.
  done.
Qed.

(** The run of the function when a lookup or a format raises: the exception
    goes to the caller and the database is as it was. *)
Lemma send_initial_realm_messages_raises (cat : Catalog) (realm' : Realm) (db : DB) :
  (get_system_bot (WELCOME_BOT settings) (realm_id realm') db = (inl Py.DoesNotExist, db) ->
   send cat realm' db = (inl Py.DoesNotExist, db)) /\
  (forall bot err,
     get_system_bot (WELCOME_BOT settings) (realm_id realm') db = (inr bot, db) ->
     welcome_messages discussion sandbox notifications cat = inl err ->
     send cat realm' db = (inl err, db)) /\
  (forall bot l err,
     get_system_bot (WELCOME_BOT settings) (realm_id realm') db = (inr bot, db) ->
     welcome_messages discussion sandbox notifications cat = inr l ->
     get_emoji_data (realm_id realm') "wave" = inl err ->
     send cat realm' db = (inl err, db)).
Proof.
  unfold send_initial_realm_messages, atomic. split; [|split].
  - intros Hbot. unfold send_initial_realm_messages_body, bind at 1. by rewrite Hbot.
  - intros bot err Hbot Hl.
    unfold send_initial_realm_messages_body, bind at 1. rewrite Hbot.
    unfold bind at 1, lift at 1. by rewrite Hl.
  - intros bot l err Hbot Hl He.
    destruct (send_initial_realm_messages_body_run cat realm' db bot l Hbot Hl)
      as (firsts & g & _ & _ & _ & _ & ->).
    by rewrite He.
Qed.

(** C6. The assertion after the lookup by content never fails: the function
    raises an [AssertionError] only if the emoji lookup itself raised it.
    Once the Welcome Bot is found and the contents are formatted, the lookup
    finds a message [g] whose id is one of the ids just sent and whose content
    is the first greetings content ([g] is one of the messages just sent when
    the ids of the older messages are below the sequence); when the emoji
    lookup answers, the wave reaction of the Welcome Bot is stored on [g], and
    when it raises, that exception is the one the function raises. *)
Theorem greetings_message_is_found (cat : Catalog) (realm' : Realm) (db : DB) :
  (fst (send cat realm' db) = inl Py.AssertionError ->
   get_emoji_data (realm_id realm') "wave" = inl Py.AssertionError) /\
  (forall bot l,
     get_system_bot (WELCOME_BOT settings) (realm_id realm') db = (inr bot, db) ->
     welcome_messages discussion sandbox notifications cat = inr l ->
     let new := stored (next_message_id db) (prepared realm' bot l) in
     exists g,
       g ∈ messages db ++ new /\
       message_id g ∈ map message_id new /\
       content g = remove_single_newlines (content1_of_greetings_topic_name cat) /\
       (Forall (fun m => (message_id m < next_message_id db)%Z) (messages db) -> g ∈ new) /\
       (forall e,
          get_emoji_data (realm_id realm') "wave" = inr e ->
          exists db',
            send cat realm' db = (inr tt, db') /\
            reactions db' = reactions db ++ [wave_reaction bot g e]) /\
       (forall err,
          get_emoji_data (realm_id realm') "wave" = inl err ->
          fst (send cat realm' db) = inl err)).
Proof.
  split.
  - destruct (get_system_bot_result (WELCOME_BOT settings) (realm_id realm') db)
      as [[bot Hbot]|Hbot].
    + destruct (welcome_messages discussion sandbox notifications cat) as [err|l] eqn:Hl.
      * destruct (send_initial_realm_messages_raises cat realm' db) as (_ & Hformat & _).
        rewrite (Hformat bot err Hbot Hl). simpl. intros [= ->].
        by destruct (welcome_messages_exn cat _ Hl).
      * destruct (get_emoji_data (realm_id realm') "wave") as [err|e] eqn:He.
        -- destruct (send_initial_realm_messages_raises cat realm' db) as (_ & _ & Hemoji).
           rewrite (Hemoji bot l err Hbot Hl He). simpl. by intros [= ->].
        -- destruct (send_initial_realm_messages_run cat realm' db bot l e Hbot Hl He)
             as (firsts & g & _ & _ & _ & _ & ->). done.
    + destruct (send_initial_realm_messages_raises cat realm' db) as (Hnobot & _ & _).
      by rewrite (Hnobot Hbot).
  - intros bot l Hbot Hl new.
    destruct (send_initial_realm_messages_body_run cat realm' db bot l Hbot Hl)
      as (firsts & g & _ & Hg & Hid & Hcontent & Hrun).
    exists g. split; [done|]. split; [done|]. split; [done|]. split.
    { intros Hold. apply elem_of_app in Hg as [Hg|Hg]; [|done].
      rewrite Forall_forall in Hold. specialize (Hold g Hg).
      apply list_elem_of_fmap in Hid as (m & Hm & Hin).
      apply list_elem_of_lookup in Hin as (i & Hi).
      apply stored_lookup in Hi as [Hi _]. lia. }
    unfold send_initial_realm_messages, atomic. rewrite Hrun. split.
    + intros e ->. eexists. split; reflexivity.
    + by intros err ->.
Qed.

(** C7. A call either returns, and then the twelve messages, their twelve
    marker rows and the wave reaction are all in the database, or raises, and
    then the database is as it was before the call. *)
Theorem send_initial_realm_messages_atomic (cat : Catalog) (realm' : Realm) (db : DB) :
  (exists bot l e firsts g,
     let new := stored (next_message_id db) (prepared realm' bot l) in
     length new = 12%nat /\
     length (rows_of realm' (map message_id new) firsts) = 12%nat /\
     send cat realm' db =
       (inr tt,
        seeded db new (rows_of realm' (map message_id new) firsts) [wave_reaction bot g e]))
  \/ (exists err, send cat realm' db = (inl err, db)).
Proof.
  destruct (send_initial_realm_messages_raises cat realm' db) as (Hnobot & Hformat & Hemoji).
  destruct (get_system_bot_result (WELCOME_BOT settings) (realm_id realm') db)
    as [[bot Hbot]|Hbot]; [|right; eexists; by apply Hnobot].
  destruct (welcome_messages discussion sandbox notifications cat) as [err|l] eqn:Hl;
    [right; eexists; by eapply Hformat|].
  destruct (get_emoji_data (realm_id realm') "wave") as [err|e] eqn:He;
    [right; eexists; by eapply Hemoji|].
  left.
  destruct (send_initial_realm_messages_run cat realm' db bot l e Hbot Hl He)
    as (firsts & g & _ & _ & _ & _ & Hrun).
  exists bot, l, e, firsts, g. cbv zeta.
  destruct (welcome_messages_declared cat l Hl) as (m1 & e1 & e2 & w1 & ->).
  split; [|split]; [reflexivity.. | exact Hrun].
Qed.

End RealmMessages.


(** On the sample installation the run stores twelve messages with the ids
    100 to 111, the marker rows of the five first messages of a topic are
    starred, and the reaction is on the first greetings message. *)
Example sample_send_result :
  exists db',
    sample_send sample_emoji_data sample_db = (inr tt, db') /\
    map message_id (messages db') = [100; 101; 102; 103; 104; 105; 106; 107; 108; 109; 110; 111]%Z /\
    map oum_flags (onboarding_user_messages db') = [3; 1; 3; 1; 3; 1; 1; 3; 1; 3; 1; 1]%Z /\
    map reaction_message_id (reactions db') = [107%Z].
Proof.
  eexists. split; [vm_compute; reflexivity|]. vm_compute. repeat split.
Qed.

(** Without the decorator a failing emoji lookup would leave the messages and
    the marker rows written; with it nothing is. *)
Example sample_send_rolled_back :
  length (messages (snd (sample_send_body no_emoji_data sample_db))) = 12%nat /\
  sample_send no_emoji_data sample_db = (inl Py.JsonableError, sample_db).
Proof.
  split; vm_compute; reflexivity.
Qed.

(** C2, on the sample installation: the run returns, and the marker row of
    the first message is starred. *)
Lemma send_initial_realm_messages_bookkeeping_witness :
  exists db' rows row,
    sample_send sample_emoji_data sample_db = (inr tt, db') /\
    onboarding_user_messages db' = onboarding_user_messages sample_db ++ rows /\
    rows !! 0%nat = Some row /\
    has_flag sample_starred row.
Proof.
  destruct (welcome_messages sample_discussion sample_sandbox sample_notifications untranslated)
    as [err|l] eqn:Hl; [discriminate Hl|].
  destruct (send_initial_realm_messages_bookkeeping sample_settings
              remove_single_newlines_model sample_emoji_data
              sample_discussion sample_sandbox sample_notifications
              sample_historical sample_starred
              untranslated sample_realm sample_db
              (sample_bot 6 "welcome-bot@zulip.com" sample_realm) l
              {| emoji_code := "1f44b"; reaction_type := "unicode_emoji" |}
              eq_refl Hl eq_refl eq_refl ltac:(discriminate))
    as (db' & new & rows & Hrun & (m1 & e1 & e2 & w1 & Hdecl) & _ & Hreqs & _
        & Hrows & Hids & _ & Hstarred).
  assert (is_Some (rows !! 0%nat)) as [row Hrow].
  { apply lookup_lt_is_Some.
    rewrite <- (length_map oum_message_id), Hids, length_map.
    rewrite <- (length_map message_request), Hreqs, length_map.
    rewrite Hdecl. simpl. lia. }
  exists db', rows, row. split; [exact Hrun|]. split; [exact Hrows|]. split; [exact Hrow|].
  apply (Hstarred 0%nat row Hrow). intros j w w' Hj. lia.
Defined.

(** C8, on the sample installation, for the sandbox channel. *)
Lemma every_default_channel_receives_a_message_witness :
  exists db' m topic,
    sample_send sample_emoji_data sample_db = (inr tt, db') /\
    m ∈ messages db' /\
    req_recipient (message_request m) = Stream sample_sandbox topic.
Proof.
  destruct (welcome_messages sample_discussion sample_sandbox sample_notifications untranslated)
    as [err|l] eqn:Hl; [discriminate Hl|].
  destruct (every_default_channel_receives_a_message sample_settings
              remove_single_newlines_model sample_emoji_data
              sample_discussion sample_sandbox sample_notifications
              sample_historical sample_starred
              untranslated sample_realm sample_db
              (sample_bot 6 "welcome-bot@zulip.com" sample_realm) l
              {| emoji_code := "1f44b"; reaction_type := "unicode_emoji" |}
              sample_sandbox eq_refl Hl eq_refl)
    as (_ & db' & m & topic & Hrun & Hm & _ & Hrecipient).
  { apply (bool_decide_unpack _). vm_compute. exact I. }
  exists db', m, topic. split; [exact Hrun|]. split; [exact Hm | exact Hrecipient].
Defined.

(** C6, on the sample installation: the reaction is stored. *)
Lemma greetings_message_is_found_witness :
  exists g db',
    content g = remove_single_newlines_model greetings_1_msgid /\
    sample_send sample_emoji_data sample_db = (inr tt, db') /\
    reactions db' =
      [wave_reaction (sample_bot 6 "welcome-bot@zulip.com" sample_realm) g
         {| emoji_code := "1f44b"; reaction_type := "unicode_emoji" |}].
Proof.
  destruct (welcome_messages sample_discussion sample_sandbox sample_notifications untranslated)
    as [err|l] eqn:Hl; [discriminate Hl|].
  destruct (proj2 (greetings_message_is_found sample_settings
                     remove_single_newlines_model sample_emoji_data
                     sample_discussion sample_sandbox sample_notifications
                     sample_historical sample_starred
                     untranslated sample_realm sample_db)
              (sample_bot 6 "welcome-bot@zulip.com" sample_realm) l eq_refl Hl)
    as (g & _ & _ & Hcontent & _ & Hreaction & _).
  destruct (Hreaction _ eq_refl) as (db' & Hrun & Hreactions).
  exists g, db'. split; [exact Hcontent|]. split; [exact Hrun | exact Hreactions].
Defined.

(** ** The system bots: counting accounts *)

Lemma elem_of_accounts_of (e : string) (rows : list UserProfile) (u : UserProfile) :
  u ∈ accounts_of e rows <-> u ∈ rows /\ email u = e.
Proof.
  unfold accounts_of. rewrite !list_elem_of_In, filter_In, String.eqb_eq. reflexivity.
Qed.

(** With one account per realm and email, the accounts of one email are in
    different realms. *)
Lemma accounts_of_realms_NoDup (e : string) (rows : list UserProfile) :
  NoDup (map (fun u => (realm_id (realm u), email u)) rows) ->
  NoDup (map (fun u => realm_id (realm u)) (accounts_of e rows)).
Proof.
  induction rows as [|u rows IH]; simpl; [constructor|].
  rewrite NoDup_cons. intros [Hfresh Hrows].
  destruct (String.eqb (email u) e) eqn:He; [|by apply IH].
  simpl. apply NoDup_cons. split; [|by apply IH].
  intros Hin. apply Hfresh.
  apply list_elem_of_fmap in Hin as (u' & Hid & Hu').
  apply elem_of_accounts_of in Hu' as [Hu' He'].
  apply String.eqb_eq in He.
  apply list_elem_of_fmap. exists u'. split; [|done]. congruence.
Qed.

Lemma has_bot_elem_of (db : DB) (r : Realm) (e : string) :
  has_bot db r e = true <->
  realm_id r ∈ map (fun u => realm_id (realm u)) (accounts_of e (user_profiles db)).
Proof.
  unfold has_bot, has_account. rewrite existsb_exists, list_elem_of_fmap. split.
  - intros (u & Hu & Hacc). apply andb_true_iff in Hacc as [He Hr].
    apply String.eqb_eq in He. apply Z.eqb_eq in Hr.
    exists u. split; [done|]. apply elem_of_accounts_of. split; [by apply list_elem_of_In|done].
  - intros (u & Hr & Hu). apply elem_of_accounts_of in Hu as [Hu He].
    exists u. split; [by apply list_elem_of_In|].
    apply andb_true_iff. split; [by apply String.eqb_eq | by apply Z.eqb_eq].
Qed.

(** An email has at most one account per realm, and as many accounts as
    there are realms exactly when every realm has one. *)
Lemma accounts_of_count (db : DB) (e : string) :
  consistent db ->
  (length (accounts_of e (user_profiles db)) <= length (realms db))%nat /\
  (length (accounts_of e (user_profiles db)) = length (realms db) <->
   forall r, r ∈ realms db -> has_bot db r e = true).
Proof.
  intros [Hacc Hrealm Hfk].
  set (ids := map (fun u => realm_id (realm u)) (accounts_of e (user_profiles db))).
  assert (length ids = length (accounts_of e (user_profiles db))) as <- by apply length_map.
  rewrite <- (length_map realm_id (realms db)).
  assert (NoDup ids) as Hids by by apply accounts_of_realms_NoDup.
  assert (ids ⊆+ map realm_id (realms db)) as Hsub.
  { apply NoDup_submseteq; [done|]. intros id Hid.
    apply list_elem_of_fmap in Hid as (u & -> & Hu).
    apply elem_of_accounts_of in Hu as [Hu _]. by apply Hfk. }
  split; [by apply submseteq_length|]. split.
  - intros Hlen r Hr. apply has_bot_elem_of. fold ids.
    rewrite (submseteq_length_Permutation _ _ Hsub ltac:(lia)).
    apply list_elem_of_fmap. by exists r.
  - intros Hall. apply Nat.le_antisymm; [by apply submseteq_length|].
    apply submseteq_length, NoDup_submseteq; [done|]. intros id Hid.
    apply list_elem_of_fmap in Hid as (r & -> & Hr).
    by apply has_bot_elem_of, Hall.
Qed.

Lemma NoDup_list_filter {A : Type} (p : A -> bool) (l : list A) :
  NoDup l -> NoDup (List.filter p l).
Proof.
  induction l as [|x l IH]; simpl; [done|].
  rewrite NoDup_cons. intros [Hx Hl]. destruct (p x); [|by apply IH].
  apply NoDup_cons. split; [|by apply IH].
  rewrite list_elem_of_In, filter_In, <- list_elem_of_In. tauto.
Qed.

Lemma length_filter_map {A B : Type} (f : A -> B) (p : B -> bool) (l : list A) :
  length (List.filter p (map f l)) = length (List.filter (fun x => p (f x)) l).
Proof.
  induction l as [|x l IH]; simpl; [done|]. destruct (p (f x)); simpl; by rewrite IH.
Qed.

(** Among the accounts of the bot emails, the accounts of one bot email are
    all its accounts. *)
Lemma accounts_of_matching (emails : list string) (e : string) (rows : list UserProfile) :
  e ∈ emails ->
  accounts_of e (List.filter (fun u => Py.in_list (email u) emails) rows) = accounts_of e rows.
Proof.
  intros He. unfold accounts_of. induction rows as [|u rows IH]; simpl; [done|].
  destruct (String.eqb (email u) e) eqn:Hu.
  - apply String.eqb_eq in Hu. subst e.
    apply in_list_elem_of in He. rewrite He. simpl. rewrite String.eqb_refl. by f_equal.
  - destruct (Py.in_list (email u) emails); simpl; [by rewrite Hu|done].
Qed.

(** The matching accounts are the accounts of the bot emails, email by email. *)
Lemma matching_accounts_sum (emails : list string) (rows : list UserProfile) :
  NoDup emails ->
  length (List.filter (fun u => Py.in_list (email u) emails) rows) =
  sum_list (map (fun e => length (accounts_of e rows)) emails).
Proof.
  induction emails as [|e emails IH]; intros Hnodup.
  - simpl. induction rows; simpl; done.
  - apply NoDup_cons in Hnodup as [He Hnodup]. simpl. rewrite <- (IH Hnodup).
    clear IH. unfold accounts_of. induction rows as [|u rows IH]; simpl; [done|].
    destruct (String.eqb (email u) e) eqn:Hu; simpl.
    + apply String.eqb_eq in Hu. subst e.
      rewrite (in_list_not_elem_of _ _ He). simpl. by rewrite IH.
    + destruct (Py.in_list (email u) emails); simpl; rewrite IH; lia.
Qed.

Lemma sum_list_at_bound (f : string -> nat) (bound : nat) (l : list string) :
  (forall e, e ∈ l -> (f e <= bound)%nat) ->
  sum_list (map f l) = (bound * length l)%nat <-> forall e, e ∈ l -> f e = bound.
Proof.
  induction l as [|e l IH]; intros Hle; simpl.
  - split; [intros _ e He; by apply elem_of_nil in He | lia].
  - assert (f e <= bound)%nat as He by (apply Hle; by left).
    assert (forall e', e' ∈ l -> (f e' <= bound)%nat) as Hl by (intros e' He'; apply Hle; by right).
    assert (sum_list (map f l) <= bound * length l)%nat as Hsum.
    { clear -Hl. induction l as [|e' l IH]; simpl; [lia|].
      assert (f e' <= bound)%nat by (apply Hl; by left).
      assert (sum_list (map f l) <= bound * length l)%nat by (apply IH; intros; apply Hl; by right).
      lia. }
    specialize (IH Hl). split.
    + intros Heq e' He'. apply elem_of_cons in He' as [->|He']; [lia|].
      apply IH; [lia|done].
    + intros Hall. rewrite (Hall e) by by left.
      assert (sum_list (map f l) = (bound * length l)%nat) as ->
        by (apply IH; intros; apply Hall; by right).
      lia.
Qed.

(** The groups of the query that have one account per realm are as many as
    the bot emails exactly when every bot email has one account per realm
    (there being at least one realm). *)
Lemma full_groups_count (emails : list string) (db : DB) :
  NoDup emails ->
  realms db <> [] ->
  length
    (List.filter (fun g => Nat.eqb (snd g) (length (realms db)))
       (count_by_email
          (List.filter (fun u => Py.in_list (email u) emails) (user_profiles db))))
    = length emails
  <-> forall e, e ∈ emails -> length (accounts_of e (user_profiles db)) = length (realms db).
Proof.
  intros Hnodup Hrealms.
  set (rows := List.filter (fun u => Py.in_list (email u) emails) (user_profiles db)).
  unfold count_by_email. rewrite length_filter_map. cbn [snd]. fold (accounts_of).
  set (full := List.filter
                 (fun e => Nat.eqb (length (List.filter (fun u => String.eqb (email u) e) rows))
                                   (length (realms db)))
                 (remove_dups (map email rows))).
  assert (NoDup full) as Hfull by apply NoDup_list_filter, NoDup_remove_dups.
  assert (forall e, e ∈ full <->
                    e ∈ emails /\ length (accounts_of e (user_profiles db)) = length (realms db))
    as Hin.
  { intros e. unfold full.
    rewrite list_elem_of_In, filter_In, <- list_elem_of_In, elem_of_remove_dups, Nat.eqb_eq.
    fold (accounts_of e rows). split.
    - intros [He Hcount]. apply list_elem_of_fmap in He as (u & -> & Hu).
      apply list_elem_of_In, filter_In in Hu as [_ Hu]. apply in_list_elem_of in Hu.
      split; [done|]. unfold rows in Hcount.
      by rewrite (accounts_of_matching emails) in Hcount.
    - intros [He Hcount]. unfold rows at 2. rewrite (accounts_of_matching emails) by done.
      split; [|done].
      destruct (accounts_of e (user_profiles db)) as [|u us] eqn:Hacc.
      { destruct (realms db); [done|]. simpl in Hcount. lia. }
      assert (u ∈ accounts_of e (user_profiles db)) as Hu by (rewrite Hacc; by left).
      apply elem_of_accounts_of in Hu as [Hu <-].
      apply list_elem_of_fmap. exists u. split; [done|].
      apply list_elem_of_In, filter_In. split; [by apply list_elem_of_In|].
      by apply in_list_elem_of. }
  assert (full ⊆+ emails) as Hsub.
  { apply NoDup_submseteq; [done|]. intros e He. by apply Hin in He as [He _]. }
  split.
  - intros Hlen e He.
    assert (e ∈ full) as Hfe
      by (rewrite (submseteq_length_Permutation _ _ Hsub ltac:(lia)); done).
    by apply Hin in Hfe as [_ Hfe].
  - intros Hall. apply Nat.le_antisymm; [by apply submseteq_length|].
    apply submseteq_length, NoDup_submseteq; [done|]. intros e He.
    apply Hin. split; [done | by apply Hall].
Qed.

Lemma some_realm_misses_some_bot_false (emails : list string) (db : DB) :
  some_realm_misses_some_bot emails db = false <->
  forall e, e ∈ emails -> forall r, r ∈ realms db -> has_bot db r e = true.
Proof.
  unfold some_realm_misses_some_bot. split.
  - intros Hnone e He r Hr.
    destruct (has_bot db r e) eqn:Hbot; [done|].
    assert (existsb (fun r => existsb (fun e => negb (has_bot db r e)) emails) (realms db) = true)
      as Hsome; [|congruence].
    apply existsb_exists. exists r. split; [by apply list_elem_of_In|].
    apply existsb_exists. exists e. split; [by apply list_elem_of_In|]. by rewrite Hbot.
  - intros Hall. apply not_true_is_false. intros Hsome.
    apply existsb_exists in Hsome as (r & Hr & Hsome).
    apply existsb_exists in Hsome as (e & He & Hsome).
    rewrite (Hall e) in Hsome by by apply list_elem_of_In. done.
Qed.

(** The check, on tables that keep their constraints, with distinct bot
    emails and at least one realm: its answer is whether some realm misses
    some bot, which is also whether the matching accounts are fewer or more
    than realms times bots. *)
Lemma missing_any_realm_internal_bots_run
    (settings : Settings) (emails : list string) (db : DB) :
  bot_emails settings = inr emails ->
  NoDup emails ->
  consistent db ->
  realms db <> [] ->
  missing_any_realm_internal_bots settings db =
    (inr (some_realm_misses_some_bot emails db), db) /\
  some_realm_misses_some_bot emails db = count_differs_from_product emails db.
Proof.
  intros Hemails Hnodup Hdb Hrealms.
  assert (forall e, e ∈ emails ->
            (length (accounts_of e (user_profiles db)) <= length (realms db))%nat) as Hle
    by (intros e _; by apply accounts_of_count).
  assert (some_realm_misses_some_bot emails db = false <->
          forall e, e ∈ emails ->
                    length (accounts_of e (user_profiles db)) = length (realms db)) as Hmiss.
  { rewrite some_realm_misses_some_bot_false. split; intros Hall e He.
    - by apply accounts_of_count, Hall.
    - by apply accounts_of_count, Hall. }
  split.
  - unfold missing_any_realm_internal_bots, bind, lift, get_db, ret. rewrite Hemails.
    do 2 f_equal.
    pose proof (full_groups_count emails db Hnodup Hrealms) as Hfull.
    destruct (some_realm_misses_some_bot emails db).
    + apply negb_true_iff, Nat.eqb_neq. intros Hlen.
      by pose proof (proj2 Hmiss (proj1 Hfull Hlen)).
    + apply negb_false_iff, Nat.eqb_eq. exact (proj2 Hfull (proj1 Hmiss eq_refl)).
  - unfold count_differs_from_product, matching_accounts.
    rewrite (matching_accounts_sum emails _ Hnodup).
    pose proof (sum_list_at_bound
                  (fun e => length (accounts_of e (user_profiles db)))
                  (length (realms db)) emails Hle) as Hsum.
    destruct (some_realm_misses_some_bot emails db).
    + symmetry. apply negb_true_iff, Nat.eqb_neq. intros Heq.
      by pose proof (proj2 Hmiss (proj1 Hsum Heq)).
    + symmetry. apply negb_false_iff, Nat.eqb_eq. exact (proj2 Hsum (proj1 Hmiss eq_refl)).
Qed.

(** C4, as the code has it. With distinct bot emails, tables that keep their
    constraints and at least one realm, the check answers true exactly when
    some realm has no account of some bot email, and that is exactly when the
    number of accounts of the bot emails differs from the number of realms
    times the number of bots.  With no realm and a bot configured it answers
    true. *)
Theorem missing_any_realm_internal_bots_spec
    (settings : Settings) (emails : list string) (db : DB) :
  bot_emails settings = inr emails ->
  NoDup emails ->
  consistent db ->
  (realms db <> [] ->
   exists missing,
     missing_any_realm_internal_bots settings db = (inr missing, db) /\
     (missing = true <-> some_realm_misses_some_bot emails db = true) /\
     (missing = true <-> count_differs_from_product emails db = true)) /\
  (realms db = [] -> emails <> [] ->
   missing_any_realm_internal_bots settings db = (inr true, db)).
Proof.
  intros Hemails Hnodup Hdb. split.
  - intros Hrealms.
    destruct (missing_any_realm_internal_bots_run settings emails db
                Hemails Hnodup Hdb Hrealms) as [Hrun Hcount].
    eexists. split; [exact Hrun|]. split; [reflexivity|]. by rewrite Hcount.
  - intros Hrealms Hbots.
    unfold missing_any_realm_internal_bots, bind, lift, get_db, ret. rewrite Hemails, Hrealms.
    do 2 f_equal. apply negb_true_iff, Nat.eqb_neq.
    assert (forall rows : list UserProfile,
              List.filter (fun g : string * nat => Nat.eqb (snd g) (@length Realm []))
                (count_by_email rows) = []) as ->.
    { intros rows. unfold count_by_email.
      assert (forall e, e ∈ remove_dups (map email rows) ->
                        length (List.filter (fun u => String.eqb (email u) e) rows) <> 0%nat)
        as Hpos.
      { intros e He. apply elem_of_remove_dups, list_elem_of_fmap in He as (u & -> & Hu).
        assert (u ∈ accounts_of (email u) rows) as Hin by by apply elem_of_accounts_of.
        unfold accounts_of in Hin. destruct (List.filter _ rows); [|done].
        by apply elem_of_nil in Hin. }
      induction (remove_dups (map email rows)) as [|e es IH]; [done|].
      simpl. destruct (Nat.eqb _ 0) eqn:Hzero.
      - apply Nat.eqb_eq in Hzero. by destruct (Hpos e ltac:(by left)).
      - apply IH. intros e' He'. apply Hpos. by right. }
    simpl. by destruct emails.
Qed.

(** C4 as the specification states it fails: with a bot configured and no
    realm, the check answers true, while no realm misses a bot and the count
    of matching accounts is the product (both are zero). *)
Lemma missing_bots_reported_without_realms :
  bot_emails sample_settings
    = inr ["notification-bot@zulip.com"; "welcome-bot@zulip.com"] /\
  missing_any_realm_internal_bots sample_settings empty_db = (inr true, empty_db) /\
  some_realm_misses_some_bot
    ["notification-bot@zulip.com"; "welcome-bot@zulip.com"] empty_db = false /\
  count_differs_from_product
    ["notification-bot@zulip.com"; "welcome-bot@zulip.com"] empty_db = false.
Proof.
  repeat split; vm_compute; reflexivity.
Qed.

Lemma sample_db_consistent : consistent sample_db.
Proof.
  split.
  - apply (bool_decide_unpack _). vm_compute. exact I.
  - apply (bool_decide_unpack _). vm_compute. exact I.
  - intros u Hu. simpl in Hu.
    repeat (apply elem_of_cons in Hu as [->|Hu]; [simpl; by left|]).
    by apply elem_of_nil in Hu.
Defined.

(** C4, on the sample installation, where no bot is missing. *)
Lemma missing_any_realm_internal_bots_spec_witness :
  exists missing,
    missing_any_realm_internal_bots sample_settings sample_db = (inr missing, sample_db) /\
    (missing = true <->
     some_realm_misses_some_bot
       ["notification-bot@zulip.com"; "welcome-bot@zulip.com"] sample_db = true).
Proof.
  destruct (proj1 (missing_any_realm_internal_bots_spec sample_settings
                     ["notification-bot@zulip.com"; "welcome-bot@zulip.com"] sample_db
                     eq_refl
                     ltac:(apply (bool_decide_unpack _); vm_compute; exact I)
                     sample_db_consistent)
              ltac:(discriminate))
    as (missing & Hrun & Hmissing & _).
  exists missing. split; [exact Hrun | exact Hmissing].
Defined.

(** ** The system bots: the repair *)

Lemma keeps_bots_refl (db : DB) : keeps_bots db db.
Proof. by split. Qed.

Lemma keeps_bots_trans (a b c : DB) : keeps_bots a b -> keeps_bots b c -> keeps_bots a c.
Proof.
  intros [Hab Hab'] [Hbc Hbc']. split; [congruence|]. intros r e H. by apply Hbc', Hab'.
Qed.

(** A loop whose steps all return keeps an invariant [I], moves along a
    preorder [R], and leaves for each element what its step established,
    when later steps cannot undo it. *)
Lemma for_each_invariant {A : Type}
    (I : DB -> Prop) (R : DB -> DB -> Prop) (Q : A -> DB -> Prop)
    (l : list A) (body : A -> M unit) :
  (forall db, R db db) ->
  (forall a b c, R a b -> R b c -> R a c) ->
  (forall x db db', Q x db -> R db db' -> Q x db') ->
  (forall x db, x ∈ l -> I db ->
                exists db', body x db = (inr tt, db') /\ I db' /\ R db db' /\ Q x db') ->
  forall db, I db ->
             exists db', for_each l body db = (inr tt, db') /\ I db' /\ R db db' /\
                         forall x, x ∈ l -> Q x db'.
Proof.
  intros Hrefl Htrans Hkeep. induction l as [|x l IH]; intros Hstep db Hdb.
  - exists db. repeat split; [done..|]. intros x Hx. by apply elem_of_nil in Hx.
  - destruct (Hstep x db ltac:(by left) Hdb) as (db1 & Hrun1 & Hdb1 & Hr1 & Hq1).
    destruct (IH ltac:(intros y db0 Hy; apply Hstep; by right) db1 Hdb1)
      as (db' & Hrun & Hdb' & Hr & Hq).
    exists db'. split; [|split; [done|split; [by eapply Htrans|]]].
    + cbn [for_each]. unfold bind. by rewrite Hrun1.
    + intros y Hy. apply elem_of_cons in Hy as [->|Hy]; [by eapply Hkeep | by apply Hq].
Qed.

(** One step of the repair returns, keeps the constraints of the tables and
    the bots there are, and leaves the realm with an account of the email. *)
Lemma create_bot_if_missing_step (r : Realm) (e : string) (db : DB) :
  consistent db ->
  realm_id r ∈ map realm_id (realms db) ->
  exists db',
    create_bot_if_missing r e db = (inr tt, db') /\
    consistent db' /\ keeps_bots db db' /\ has_bot db' r e = true.
Proof.
  intros [Hacc Hrealm Hfk] Hr. unfold create_bot_if_missing.
  destruct (existsb (has_account e (realm_id r)) (user_profiles db)) eqn:Hhas.
  - exists db. repeat split; done.
  - eexists. split; [reflexivity|]. split; [split; cbn [user_profiles realms]|split].
    + rewrite map_app. apply NoDup_app. split; [done|]. split; [|apply NoDup_singleton].
      intros key Hkey Hnew. apply list_elem_of_singleton in Hnew. subst key.
      apply list_elem_of_fmap in Hkey as (u & [= Hid He] & Hu). simpl in Hid, He.
      assert (existsb (has_account e (realm_id r)) (user_profiles db) = true) as Habs;
        [|congruence].
      apply existsb_exists. exists u. split; [by apply list_elem_of_In|].
      unfold has_account. rewrite <- He, <- Hid, String.eqb_refl, Z.eqb_refl. done.
    + done.
    + intros u Hu. apply elem_of_app in Hu as [Hu|Hu]; [by apply Hfk|].
      apply list_elem_of_singleton in Hu. by subst u.
    + split; [done|]. intros r' e' Hbot. unfold has_bot in *. cbn [user_profiles].
      rewrite existsb_app, Hbot. done.
    + unfold has_bot. cbn [user_profiles]. rewrite existsb_app. simpl.
      unfold has_account at 2. simpl. rewrite String.eqb_refl, Z.eqb_refl.
      by rewrite orb_true_r.
Qed.

Lemma has_bot_kept (r : Realm) (e : string) (db db' : DB) :
  has_bot db r e = true -> keeps_bots db db' -> has_bot db' r e = true.
Proof. intros Hbot [_ Hkeep]. by apply Hkeep. Qed.

(** The repair of one realm leaves it with an account of every bot email. *)
Lemma setup_realm_internal_bots_run
    (settings : Settings) (emails : list string) (r : Realm) (db : DB) :
  bot_emails settings = inr emails ->
  consistent db ->
  r ∈ realms db ->
  exists db',
    setup_realm_internal_bots settings r db = (inr tt, db') /\
    consistent db' /\ keeps_bots db db' /\
    forall e, e ∈ emails -> has_bot db' r e = true.
Proof.
  intros Hemails Hdb Hr.
  unfold setup_realm_internal_bots, bind, lift. rewrite Hemails.
  destruct (for_each_invariant
              (fun db1 => consistent db1 /\ realm_id r ∈ map realm_id (realms db1))
              keeps_bots (fun e db1 => has_bot db1 r e = true)
              emails (create_bot_if_missing r)
              keeps_bots_refl keeps_bots_trans (has_bot_kept r)) with (db := db)
    as (db' & Hrun & [Hdb' _] & Hkeep & Hall).
  - intros e db1 _ [Hdb1 Hr1].
    destruct (create_bot_if_missing_step r e db1 Hdb1 Hr1)
      as (db2 & Hrun & Hdb2 & [Hsame Hkeep] & Hbot).
    exists db2. split; [done|]. split; [split; [done | by rewrite Hsame]|].
    split; [by split | done].
  - split; [done|]. apply list_elem_of_fmap. by exists r.
  - by exists db'.
Qed.

(** The repair of every realm leaves every realm with an account of every
    bot email. *)
Lemma repair_run (settings : Settings) (emails : list string) (db : DB) :
  bot_emails settings = inr emails ->
  consistent db ->
  exists db',
    for_each (realms db) (setup_realm_internal_bots settings) db = (inr tt, db') /\
    consistent db' /\ keeps_bots db db' /\
    some_realm_misses_some_bot emails db' = false.
Proof.
  intros Hemails Hdb.
  destruct (for_each_invariant
              (fun db1 => consistent db1 /\ realms db1 = realms db)
              keeps_bots (fun r db1 => forall e, e ∈ emails -> has_bot db1 r e = true)
              (realms db) (setup_realm_internal_bots settings)
              keeps_bots_refl keeps_bots_trans) with (db := db)
    as (db' & Hrun & [Hdb' Hrealms] & Hkeep & Hall).
  - intros r db1 db2 Hbots Hkeep e He. eapply has_bot_kept; [by apply Hbots|done].
  - intros r db1 Hr [Hdb1 Hrealms1].
    destruct (setup_realm_internal_bots_run settings emails r db1 Hemails Hdb1)
      as (db2 & Hrun & Hdb2 & [Hsame Hkeep] & Hbots); [by rewrite Hrealms1|].
    exists db2. split; [done|]. split; [split; [done | congruence]|].
    split; [by split | done].
  - by split.
  - exists db'. split; [done|]. split; [done|]. split; [done|].
    apply some_realm_misses_some_bot_false. intros e He r Hr.
    apply Hall; [by rewrite <- Hrealms|done].
Qed.

(** C5, as the code has it. When the check reports nothing missing the
    repair writes nothing.  With distinct bot emails, tables that keep their
    constraints and at least one realm, after one run of the repair the check
    reports nothing missing and a second run writes nothing.  With no realm
    the repair writes nothing. *)
Theorem create_if_missing_realm_internal_bots_idempotent
    (settings : Settings) (emails : list string) (db : DB) :
  bot_emails settings = inr emails ->
  NoDup emails ->
  consistent db ->
  (missing_any_realm_internal_bots settings db = (inr false, db) ->
   create_if_missing_realm_internal_bots settings db = (inr tt, db)) /\
  (realms db <> [] ->
   exists db',
     create_if_missing_realm_internal_bots settings db = (inr tt, db') /\
     consistent db' /\
     realms db' = realms db /\
     missing_any_realm_internal_bots settings db' = (inr false, db') /\
     create_if_missing_realm_internal_bots settings db' = (inr tt, db')) /\
  (realms db = [] ->
   create_if_missing_realm_internal_bots settings db = (inr tt, db)).
Proof.
  intros Hemails Hnodup Hdb.
  assert (forall db0, missing_any_realm_internal_bots settings db0 = (inr false, db0) ->
                      create_if_missing_realm_internal_bots settings db0 = (inr tt, db0))
    as Hnoop.
  { intros db0 Hcheck. unfold create_if_missing_realm_internal_bots, bind. by rewrite Hcheck. }
  split; [apply Hnoop|]. split.
  - intros Hrealms.
    destruct (missing_any_realm_internal_bots_run settings emails db
                Hemails Hnodup Hdb Hrealms) as [Hcheck _].
    destruct (some_realm_misses_some_bot emails db) eqn:Hmissing.
    + destruct (repair_run settings emails db Hemails Hdb)
        as (db' & Hrun & Hdb' & [Hsame _] & Hnone).
      assert (missing_any_realm_internal_bots settings db' = (inr false, db')) as Hcheck'.
      { destruct (missing_any_realm_internal_bots_run settings emails db'
                    Hemails Hnodup Hdb' ltac:(by rewrite Hsame)) as [-> _].
        by rewrite Hnone. }
      exists db'. split; [|split; [done|split; [done|split; [done|by apply Hnoop]]]].
      unfold create_if_missing_realm_internal_bots, bind at 1. rewrite Hcheck.
      unfold bind, get_db. exact Hrun.
    + exists db. split; [by apply Hnoop|]. split; [done|]. split; [done|].
      split; [done | by apply Hnoop].
  - intros Hrealms.
    unfold create_if_missing_realm_internal_bots, bind at 1.
    unfold missing_any_realm_internal_bots, bind, lift, get_db, ret. rewrite Hemails.
    destruct (negb _); [|done]. by rewrite Hrealms.
Qed.

(** C5 as the specification states it fails: with a bot configured and no
    realm, the repair returns and the check still reports a missing bot. *)
Lemma repair_without_realms_leaves_bots_missing :
  create_if_missing_realm_internal_bots sample_settings empty_db = (inr tt, empty_db) /\
  missing_any_realm_internal_bots sample_settings empty_db = (inr true, empty_db).
Proof.
  split; vm_compute; reflexivity.
Qed.

Lemma sample_db_without_bots_consistent : consistent sample_db_without_bots.
Proof.
  split.
  - apply (bool_decide_unpack _). vm_compute. exact I.
  - apply (bool_decide_unpack _). vm_compute. exact I.
  - intros u Hu. simpl in Hu.
    repeat (apply elem_of_cons in Hu as [->|Hu]; [simpl; by left|]).
    by apply elem_of_nil in Hu.
Defined.

(** On the sample realm without bots the repair creates the two accounts,
    with the next two ids. *)
Example sample_repair :
  exists db',
    create_if_missing_realm_internal_bots sample_settings sample_db_without_bots
      = (inr tt, db') /\
    map (fun u => (user_id u, email u)) (user_profiles db') =
      [ (7%Z, "iago@zulip.com");
        (8%Z, "notification-bot@zulip.com");
        (9%Z, "welcome-bot@zulip.com") ].
Proof.
  eexists. split; vm_compute; reflexivity.
Qed.

(** C5, on the sample realm without bots. *)
Lemma create_if_missing_realm_internal_bots_idempotent_witness :
  exists db',
    create_if_missing_realm_internal_bots sample_settings sample_db_without_bots
      = (inr tt, db') /\
    missing_any_realm_internal_bots sample_settings db' = (inr false, db') /\
    create_if_missing_realm_internal_bots sample_settings db' = (inr tt, db').
Proof.
  destruct (proj1 (proj2 (create_if_missing_realm_internal_bots_idempotent sample_settings
                     ["notification-bot@zulip.com"; "welcome-bot@zulip.com"]
                     sample_db_without_bots
                     eq_refl
                     ltac:(apply (bool_decide_unpack _); vm_compute; exact I)
                     sample_db_without_bots_consistent))
              ltac:(discriminate))
    as (db' & Hrun & _ & _ & Hcheck & Hagain).
  exists db'. split; [exact Hrun|]. split; [exact Hcheck | exact Hagain].
Defined.

(** * Further properties of the module *)

(** ** The responder, read backwards *)

(** An input is a keyword of some group or of none. *)
Lemma keyword_group_of (s : string) :
  (exists g, s ∈ keywords g) \/ (forall g, s ∉ keywords g).
Proof.
  destruct (decide (s ∈ keywords Apps)); [left; by eexists|].
  destruct (decide (s ∈ keywords Profile)); [left; by eexists|].
  destruct (decide (s ∈ keywords Theme)); [left; by eexists|].
  destruct (decide (s ∈ keywords Channels)); [left; by eexists|].
  destruct (decide (s ∈ keywords Topics)); [left; by eexists|].
  destruct (decide (s ∈ keywords Shortcuts)); [left; by eexists|].
  destruct (decide (s ∈ keywords Formatting)); [left; by eexists|].
  destruct (decide (s ∈ keywords Help)); [left; by eexists|].
  right. intros g. by destruct g.
Qed.

(** In the source language the canned responses of different groups are
    different texts, and none of them is the fallback. *)
Lemma canned_response_inj (g g' : keyword_group) :
  canned_response untranslated g = canned_response untranslated g' -> g = g'.
Proof.
  destruct g, g'; intros Heq; try reflexivity; vm_compute in Heq; discriminate Heq.
Qed.

Lemma canned_response_not_fallback (g : keyword_group) :
  canned_response untranslated g <> fallback_response untranslated.
Proof.
  destruct g; intros Heq; vm_compute in Heq; discriminate Heq.
Qed.

(** X1. In the source language the reply tells the keyword group: an input
    gets the canned response of a group exactly when it is one of the group's
    keywords, and gets the fallback exactly when it is no keyword at all (the
    match is exact: no other spelling of a keyword is recognized). *)
Theorem select_welcome_bot_response_identifies_group (s : string) :
  (forall g,
     select_welcome_bot_response untranslated s = canned_response untranslated g
     <-> s ∈ keywords g) /\
  (select_welcome_bot_response untranslated s = fallback_response untranslated
   <-> forall g, s ∉ keywords g).
Proof.
  split.
  - intros g. split; [|apply select_matched].
    intros Hreply. destruct (keyword_group_of s) as [[g' Hg']|Hnone].
    + rewrite (select_matched _ _ _ Hg') in Hreply.
      by rewrite <- (canned_response_inj _ _ Hreply).
    + rewrite (select_unmatched _ _ Hnone) in Hreply.
      symmetry in Hreply. by apply canned_response_not_fallback in Hreply.
  - split; [|apply select_unmatched].
    intros Hreply g Hg. rewrite (select_matched _ _ _ Hg) in Hreply.
    by apply canned_response_not_fallback in Hreply.
Qed.

(** X2. Every command that [bot_commands] lists is understood: the list is
    the text of [bot_commands], and each listed command is a keyword of a
    group, so in every language it gets that group's canned response, which
    in the source language is not the fallback. *)
Theorem listed_commands_are_understood (no_help_command : bool) :
  bot_commands no_help_command =
    Py.join ", " (map (fun command => "`" +:+ command +:+ "`")
                      (listed_commands no_help_command)) +:+ "." /\
  forall command,
    command ∈ listed_commands no_help_command ->
    exists g,
      command ∈ keywords g /\
      (forall cat, select_welcome_bot_response cat command = canned_response cat g) /\
      select_welcome_bot_response untranslated command <> fallback_response untranslated.
Proof.
  split; [by destruct no_help_command|].
  intros command Hlisted.
  assert (exists g, command ∈ keywords g) as [g Hg].
  { destruct no_help_command; simpl in Hlisted;
      repeat (apply elem_of_cons in Hlisted as [->|Hlisted];
              [first [ by exists Apps; apply (bool_decide_unpack _)
                     | by exists Profile; apply (bool_decide_unpack _)
                     | by exists Theme; apply (bool_decide_unpack _)
                     | by exists Channels; apply (bool_decide_unpack _)
                     | by exists Topics; apply (bool_decide_unpack _)
                     | by exists Shortcuts; apply (bool_decide_unpack _)
                     | by exists Formatting; apply (bool_decide_unpack _)
                     | by exists Help; apply (bool_decide_unpack _) ]|]);
      by apply elem_of_nil in Hlisted. }
  exists g. split; [done|]. split; [intros cat; by apply select_matched|].
  rewrite (select_matched _ _ _ Hg). apply canned_response_not_fallback.
Qed.

(** ** The check of the system bots, read off its query *)

(** X5. With distinct bot emails and at least one realm, the check reads the
    database without writing and answers by counting alone: it reports
    nothing missing exactly when every bot email has as many accounts as
    there are realms (it does not look at which realm an account is in). *)
Theorem missing_any_realm_internal_bots_counts
    (settings : Settings) (emails : list string) (db : DB) :
  bot_emails settings = inr emails ->
  NoDup emails ->
  realms db <> [] ->
  exists missing,
    missing_any_realm_internal_bots settings db = (inr missing, db) /\
    (missing = false <->
     forall e, e ∈ emails ->
               length (accounts_of e (user_profiles db)) = length (realms db)).
Proof.
  intros Hemails Hnodup Hrealms. eexists. split.
  - unfold missing_any_realm_internal_bots, bind, lift, get_db, ret. rewrite Hemails.
    reflexivity.
  - rewrite negb_false_iff, Nat.eqb_eq. by apply full_groups_count.
Qed.

(** X5, on the sample realm without bots: each bot email has no account, one
    realm is there, and the check reports a missing bot. *)
Lemma missing_any_realm_internal_bots_counts_witness :
  missing_any_realm_internal_bots sample_settings sample_db_without_bots
    = (inr true, sample_db_without_bots).
Proof.
  destruct (missing_any_realm_internal_bots_counts sample_settings
              ["notification-bot@zulip.com"; "welcome-bot@zulip.com"]
              sample_db_without_bots eq_refl
              ltac:(apply (bool_decide_unpack _); vm_compute; exact I)
              ltac:(discriminate))
    as (missing & Hrun & Hcounts).
  destruct missing; [exact Hrun|].
  pose proof (proj1 Hcounts eq_refl "welcome-bot@zulip.com"
                ltac:(apply (bool_decide_unpack _); vm_compute; exact I)) as Hcount.
  vm_compute in Hcount. discriminate Hcount.
Defined.

Lemma list_filter_none {A : Type} (p : A -> bool) (l : list A) :
  (forall x, x ∈ l -> p x = false) -> List.filter p l = [].
Proof.
  induction l as [|x l IH]; intros Hp; simpl; [done|].
  rewrite (Hp x) by by left. apply IH. intros y Hy. apply Hp. by right.
Qed.

(** X6. With no system bot configured the check reports nothing missing on
    every database, and the repair writes nothing. *)
Theorem no_bot_configured_nothing_missing (settings : Settings) (db : DB) :
  REALM_INTERNAL_BOTS settings = [] ->
  missing_any_realm_internal_bots settings db = (inr false, db) /\
  create_if_missing_realm_internal_bots settings db = (inr tt, db).
Proof.
  intros Hbots.
  assert (missing_any_realm_internal_bots settings db = (inr false, db)) as Hcheck.
  { unfold missing_any_realm_internal_bots, bot_emails, bind, lift, get_db, ret.
    rewrite Hbots. cbn [comprehension].
    rewrite (list_filter_none _ (user_profiles db)) by done. reflexivity. }
  split; [done|].
  unfold create_if_missing_realm_internal_bots, bind. by rewrite Hcheck.
Qed.

Lemma no_bot_configured_nothing_missing_witness :
  missing_any_realm_internal_bots sample_settings_without_bots sample_db_without_bots
    = (inr false, sample_db_without_bots).
Proof.
  exact (proj1 (no_bot_configured_nothing_missing sample_settings_without_bots
                  sample_db_without_bots eq_refl)).
Defined.

Lemma remove_dups_length (l : list string) : (length (remove_dups l) <= length l)%nat.
Proof.
  induction l as [|x l IH]; simpl; [done|]. case_decide; simpl; lia.
Qed.

Lemma remove_dups_shorter (l : list string) :
  ~ NoDup l -> (length (remove_dups l) < length l)%nat.
Proof.
  induction l as [|x l IH]; intros Hdup; [by destruct Hdup; constructor|].
  simpl. case_decide as Hx.
  - pose proof (remove_dups_length l). lia.
  - simpl. apply Nat.succ_lt_mono in IH; [done|].
    intros Hl. apply Hdup. by constructor.
Qed.

(** X7. A bot email configured twice makes the check report a missing bot on
    every database, whatever accounts there are: the groups of the query are
    one per distinct email, fewer than the configured emails. *)
Theorem duplicate_bot_email_always_missing
    (settings : Settings) (emails : list string) (db : DB) :
  bot_emails settings = inr emails ->
  ~ NoDup emails ->
  missing_any_realm_internal_bots settings db = (inr true, db).
Proof.
  intros Hemails Hdup.
  unfold missing_any_realm_internal_bots, bind, lift, get_db, ret. rewrite Hemails.
  do 2 f_equal. apply negb_true_iff, Nat.eqb_neq.
  set (rows := List.filter (fun u => Py.in_list (email u) emails) (user_profiles db)).
  unfold count_by_email. rewrite length_filter_map. cbn [snd].
  match goal with |- length ?full <> _ => set (groups := full) end.
  assert (groups ⊆+ remove_dups emails) as Hsub.
  { apply NoDup_submseteq; [apply NoDup_list_filter, NoDup_remove_dups|].
    intros e He. apply elem_of_remove_dups.
    apply list_elem_of_In, filter_In in He as [He _].
    apply list_elem_of_In, elem_of_remove_dups, list_elem_of_fmap in He as (u & -> & Hu).
    apply list_elem_of_In, filter_In in Hu as [_ Hu]. by apply in_list_elem_of. }
  apply submseteq_length in Hsub. pose proof (remove_dups_shorter emails Hdup). lia.
Qed.

Lemma duplicate_bot_email_always_missing_witness :
  missing_any_realm_internal_bots sample_settings_with_duplicate sample_db
    = (inr true, sample_db).
Proof.
  apply (duplicate_bot_email_always_missing sample_settings_with_duplicate
           ["welcome-bot@zulip.com"; "welcome-bot@zulip.com"] sample_db eq_refl).
  intros Hnodup. apply NoDup_cons in Hnodup as [Hin _]. apply Hin. by left.
Defined.

(** A template with no percent sign cannot take the domain. *)
Lemma percent_without_conversion (template arg : string) :
  Py.contains "%" template = false ->
  Py.percent template arg = inl Py.TypeError.
Proof.
  unfold Py.percent. induction template as [|c template IH]; [done|].
  cbn [Py.contains Py.percent_from]. simpl String.prefix.
  destruct (Ascii.eqb c "%"%char) eqn:Hc.
  - apply Ascii.eqb_eq in Hc. subst c. simpl. by destruct template.
  - assert ((if Ascii.ascii_dec "%"%char c then true else false) = false) as Hdec.
    { destruct (Ascii.ascii_dec "%"%char c) as [<-|]; [|done].
      by rewrite Ascii.eqb_refl in Hc. }
    intros Hrest. rewrite IH; [done|].
    destruct (Py.contains "%" template); [|done].
    by rewrite orb_true_r in Hrest.
Qed.

Lemma comprehension_raises {A B : Type} (f : A -> Py.exn + B) (l : list A) (x : A) (err : Py.exn) :
  x ∈ l -> f x = inl err -> exists err', comprehension f l = inl err'.
Proof.
  intros Hx Hfx. induction l as [|y l IH]; [by apply elem_of_nil in Hx|].
  simpl. destruct (f y) as [err'|b] eqn:Hfy; [by eexists|].
  apply elem_of_cons in Hx as [->|Hx]; [congruence|].
  destruct (IH Hx) as [err' ->]. by eexists.
Qed.

(** X8. When the email template of some configured bot has no percent sign,
    filling in the bot domain raises, so the check and the repair both raise
    and write nothing. *)
Theorem template_without_conversion_raises
    (settings : Settings) (bot : InternalBot) (db : DB) :
  bot ∈ REALM_INTERNAL_BOTS settings ->
  Py.contains "%" (email_template bot) = false ->
  exists err,
    missing_any_realm_internal_bots settings db = (inl err, db) /\
    create_if_missing_realm_internal_bots settings db = (inl err, db).
Proof.
  intros Hbot Htemplate.
  destruct (comprehension_raises
              (fun bot => Py.percent (email_template bot) (INTERNAL_BOT_DOMAIN settings))
              (REALM_INTERNAL_BOTS settings) bot Py.TypeError Hbot
              (percent_without_conversion _ _ Htemplate)) as [err Herr].
  exists err.
  assert (missing_any_realm_internal_bots settings db = (inl err, db)) as Hcheck.
  { unfold missing_any_realm_internal_bots, bot_emails, bind, lift. by rewrite Herr. }
  split; [done|].
  unfold create_if_missing_realm_internal_bots, bind. by rewrite Hcheck.
Qed.

Lemma template_without_conversion_raises_witness :
  exists err,
    missing_any_realm_internal_bots sample_settings_with_fixed_email sample_db
      = (inl err, sample_db) /\
    create_if_missing_realm_internal_bots sample_settings_with_fixed_email sample_db
      = (inl err, sample_db).
Proof.
  apply (template_without_conversion_raises sample_settings_with_fixed_email
           {| bot_name := "Welcome Bot"; email_template := "welcome-bot@zulip.com" |}
           sample_db).
  - right. left.
  - reflexivity.
Defined.

(** ** The initial messages of a realm: edge cases *)

Lemma first_by_pk_Some_elem_of (rows : list Message) (m : Message) :
  first_by_pk rows = Some m -> m ∈ rows.
Proof.
  revert m. induction rows as [|m0 rows IH]; intros m; simpl; [done|].
  destruct (first_by_pk rows) as [m1|].
  - destruct (Z.leb _ _); intros [= <-]; [by left | right; by apply IH].
  - intros [= <-]. by left.
Qed.

(** Among rows stored by one send, [first()] answers the one stored first. *)
Lemma first_by_pk_filter_stored
    (p : Message -> bool) (first_id : Z) (reqs : list SendMessageRequest) :
  first_by_pk (List.filter p (stored first_id reqs)) =
  head (List.filter p (stored first_id reqs)).
Proof.
  revert first_id. induction reqs as [|req reqs IH]; intros first_id; simpl; [done|].
  destruct (p _); [|apply IH]. simpl.
  destruct (first_by_pk (List.filter p (stored (first_id + 1) reqs))) as [m'|] eqn:Hfirst;
    [|done].
  apply first_by_pk_Some_elem_of, list_elem_of_In, filter_In in Hfirst as [Hm' _].
  apply list_elem_of_In, list_elem_of_lookup in Hm' as (i & Hi).
  apply stored_lookup in Hi as [Hid _].
  destruct (Z.leb_spec first_id (message_id m')); [done | lia].
Qed.

Lemma head_filter_first {A : Type} (p : A -> bool) (l : list A) (x : A) :
  head (List.filter p l) = Some x ->
  exists i, l !! i = Some x /\ p x = true /\
            forall j y, (j < i)%nat -> l !! j = Some y -> p y = false.
Proof.
  induction l as [|y l IH]; simpl; [done|].
  destruct (p y) eqn:Hy.
  - intros [= <-]. exists 0%nat. repeat split; [done..|]. intros j z Hj. lia.
  - intros Hhead. destruct (IH Hhead) as (i & Hi & Hx & Hbefore).
    exists (S i). repeat split; [done..|].
    intros [|j] z Hj Hz; simpl in Hz; [by injection Hz as <-|].
    apply (Hbefore j); [lia|done].
Qed.

Lemma difference_with_unseen (a : string) (names seen : gset string) :
  a ∉ seen ->
  ({[a]} ∪ names) ∖ seen = ({[a]} : gset string) ∪ (names ∖ (seen ∪ {[a]})).
Proof.
  intros Ha. apply set_eq. intros x. set_unfold.
  destruct (decide (x = a)); naive_solver.
Qed.

Lemma unseen_disjoint (a : string) (names seen : gset string) :
  ({[a]} : gset string) ## (names ∖ (seen ∪ {[a]})).
Proof. set_unfold. naive_solver. Qed.

Lemma difference_with_seen (a : string) (names seen : gset string) :
  a ∈ seen -> ({[a]} ∪ names) ∖ seen = names ∖ seen.
Proof. intros Ha. apply set_eq. intros x. set_unfold. naive_solver. Qed.

Lemma fresh_id_disjoint (id : Z) (ids : gset Z) : id ∉ ids -> ids ## {[id]}.
Proof. set_unfold. naive_solver. Qed.

Section RealmMessagesEdges.

Variable settings : Settings.
Variable remove_single_newlines : string -> string.
Variable get_emoji_data : Z -> string -> Py.exn + EmojiData.
Variables discussion sandbox notifications : string.
Variables flags_historical flags_starred : Z.

Local Abbreviation body :=
  (send_initial_realm_messages_body settings remove_single_newlines get_emoji_data
     discussion sandbox notifications flags_historical flags_starred).
Local Abbreviation send :=
  (send_initial_realm_messages settings remove_single_newlines get_emoji_data
     discussion sandbox notifications flags_historical flags_starred).
Local Abbreviation rows_of := (onboarding_rows flags_historical flags_starred).
Local Abbreviation prepared realm' bot l :=
  (map (fun message =>
          internal_prep_stream_message_by_name realm' bot
            (wm_channel_name message) (wm_topic_name message)
            (remove_single_newlines (wm_content message))) l).

(** The steps of the body up to the lookup by content, with the outcome of
    the lookup left open. *)
Lemma send_initial_realm_messages_body_steps
    (cat : Catalog) (realm' : Realm) (db : DB) (bot : UserProfile)
    (l : list WelcomeMessage) (firsts : gset Z) :
  get_system_bot (WELCOME_BOT settings) (realm_id realm') db = (inr bot, db) ->
  welcome_messages discussion sandbox notifications cat = inr l ->
  let new := stored (next_message_id db) (prepared realm' bot l) in
  let message_ids := map message_id new in
  first_message_ids_from 0 l message_ids ∅ ∅ = inr firsts ->
  body cat realm' db =
    match first_by_pk
            (List.filter
               (fun m => (existsb (Z.eqb (message_id m)) message_ids
                          && String.eqb (content m)
                               (remove_single_newlines
                                  (content1_of_greetings_topic_name cat)))%bool)
               (messages db ++ new)) with
    | None => (inl Py.AssertionError, seeded db new (rows_of realm' message_ids firsts) [])
    | Some g =>
        match get_emoji_data (realm_id realm') "wave" with
        | inr e =>
            (inr tt,
             seeded db new (rows_of realm' message_ids firsts) [wave_reaction bot g e])
        | inl err => (inl err, seeded db new (rows_of realm' message_ids firsts) [])
        end
    end.
Proof.
  intros Hbot Hl new message_ids Hfirsts.
  assert (length new = length (prepared realm' bot l)) as Hnew by apply stored_length.
  unfold send_initial_realm_messages_body, bind at 1. rewrite Hbot.
  unfold bind at 1, lift at 1. rewrite Hl.
  unfold bind at 1. rewrite do_send_messages_run.
  rewrite map_map. cbn [sent_message_id]. fold new.
  change (map (fun x : Message => message_id x) new) with message_ids.
  unfold bind at 1, lift at 1. rewrite Hfirsts.
  unfold bind at 1, bulk_create at 1. cbn -[first_message_with new message_ids].
  unfold bind at 1, first_message_with at 1. cbn [messages].
  destruct (first_by_pk _) as [g|].
  - unfold bind, lift. destruct (get_emoji_data _ _) as [err|e].
    + unfold seeded. rewrite app_nil_r, Hnew. reflexivity.
    + unfold do_add_reaction, seeded. rewrite Hnew. reflexivity.
  - unfold raise, seeded. rewrite app_nil_r, Hnew. reflexivity.
Qed.

(** When the older ids lie below the sequence, the lookup by id and content
    sees the messages just stored only, and of them those with the content. *)
Lemma lookup_sees_new_messages
    (db : DB) (reqs : list SendMessageRequest) (text : string) :
  ids_below_sequence db ->
  let new := stored (next_message_id db) reqs in
  List.filter
    (fun m => (existsb (Z.eqb (message_id m)) (map message_id new)
               && String.eqb (content m) text)%bool)
    (messages db ++ new)
  = List.filter (fun m => String.eqb (content m) text) new.
Proof.
  intros Hbelow new. rewrite List.filter_app.
  rewrite list_filter_none, app_nil_l.
  - apply filter_ext_in. intros m Hm.
    assert (existsb (Z.eqb (message_id m)) (map message_id new) = true) as ->; [|done].
    apply existsb_exists. exists (message_id m). split; [|apply Z.eqb_refl].
    by apply in_map.
  - intros m Hm. unfold ids_below_sequence in Hbelow. rewrite Forall_forall in Hbelow.
    specialize (Hbelow m Hm). apply andb_false_iff. left.
    apply not_true_is_false. intros Hin.
    apply existsb_exists in Hin as (id & Hid & Heq). apply Z.eqb_eq in Heq. subst id.
    apply list_elem_of_In, list_elem_of_fmap in Hid as (m' & Hm' & Hin).
    apply list_elem_of_lookup in Hin as (i & Hi).
    apply stored_lookup in Hi as [Hi _]. lia.
Qed.

(** X9. The reaction goes to the first message of the run that has the
    content looked up: when the Welcome Bot and the emoji are found, the
    contents are formatted and the older ids lie below the sequence, the wave
    reaction is stored on the message [g] of the run at the least position
    whose stored content is the first greetings content.  That position is
    the eighth, the greetings message itself, unless an earlier message of
    the run has the same stored content. *)
Theorem reaction_goes_to_first_message_with_content
    (cat : Catalog) (realm' : Realm) (db : DB) (bot : UserProfile)
    (l : list WelcomeMessage) (e : EmojiData) :
  get_system_bot (WELCOME_BOT settings) (realm_id realm') db = (inr bot, db) ->
  welcome_messages discussion sandbox notifications cat = inr l ->
  get_emoji_data (realm_id realm') "wave" = inr e ->
  ids_below_sequence db ->
  let new := stored (next_message_id db) (prepared realm' bot l) in
  let text := remove_single_newlines (content1_of_greetings_topic_name cat) in
  exists db' g i,
    send cat realm' db = (inr tt, db') /\
    reactions db' = reactions db ++ [wave_reaction bot g e] /\
    new !! i = Some g /\
    content g = text /\
    (forall j m, (j < i)%nat -> new !! j = Some m -> content m <> text) /\
    (i <= 7)%nat.
Proof.
  intros Hbot Hl He Hbelow new text.
  destruct (first_message_ids_from_total l 0 (map message_id new) ∅ ∅)
    as [firsts Hfirsts].
  { unfold new. rewrite length_map, stored_length, length_map. simpl. lia. }
  pose proof (send_initial_realm_messages_body_steps cat realm' db bot l firsts
                Hbot Hl Hfirsts) as Hrun.
  rewrite (lookup_sees_new_messages db _ _ Hbelow), first_by_pk_filter_stored in Hrun.
  fold new text in Hrun.
  destruct (welcome_messages_declared discussion sandbox notifications cat l Hl)
    as (m1 & e1 & e2 & w1 & Hdecl).
  assert (exists m7, new !! 7%nat = Some m7 /\ content m7 = text) as (m7 & Hm7 & Hcontent7).
  { eexists. split.
    - unfold new. apply stored_lookup_request. rewrite Hdecl. reflexivity.
    - reflexivity. }
  destruct (head (List.filter (fun m => String.eqb (content m) text) new)) as [g|] eqn:Hhead.
  - destruct (head_filter_first _ _ _ Hhead) as (i & Hi & Hg & Hbefore).
    apply String.eqb_eq in Hg.
    exists (seeded db new (rows_of realm' (map message_id new) firsts) [wave_reaction bot g e]),
      g, i.
    split; [|split; [done|split; [done|split; [done|split]]]].
    + unfold send_initial_realm_messages, atomic. by rewrite Hrun, He.
    + intros j m Hj Hm. apply String.eqb_neq. by eapply Hbefore.
    + destruct (Nat.le_gt_cases i 7) as [|Hlate]; [done|].
      pose proof (Hbefore 7%nat m7 Hlate Hm7) as Habs.
      apply String.eqb_neq in Habs. done.
  - exfalso. apply head_None in Hhead.
    assert (m7 ∈ List.filter (fun m => String.eqb (content m) text) new) as Hin.
    { apply list_elem_of_In, filter_In. split.
      - apply list_elem_of_In. by eapply list_elem_of_lookup_2.
      - by apply String.eqb_eq. }
    rewrite Hhead in Hin. by apply elem_of_nil in Hin.
Qed.

(** X10. Topics are told apart by name alone, not by channel.  When a
    translation gives the greetings topic the name of the experiments topic,
    the first greetings message, the first message of its channel, gets no
    star: its marker row, the eighth, is historical only, the star of that
    name having gone to a message of the sandbox channel. *)
Theorem same_topic_name_in_two_channels_one_star
    (cat : Catalog) (realm' : Realm) (db : DB) (bot : UserProfile)
    (l : list WelcomeMessage) (e : EmojiData) :
  get_system_bot (WELCOME_BOT settings) (realm_id realm') db = (inr bot, db) ->
  welcome_messages discussion sandbox notifications cat = inr l ->
  get_emoji_data (realm_id realm') "wave" = inr e ->
  Z.land flags_historical flags_starred = 0%Z ->
  flags_starred <> 0%Z ->
  gettext cat "greetings" = gettext cat "experiments" ->
  exists db' rows row w w',
    send cat realm' db = (inr tt, db') /\
    onboarding_user_messages db' = onboarding_user_messages db ++ rows /\
    l !! 2%nat = Some w' /\ wm_channel_name w' = sandbox /\
    l !! 7%nat = Some w /\ wm_channel_name w = notifications /\
    wm_topic_name w = wm_topic_name w' /\
    rows !! 7%nat = Some row /\
    oum_flags row = flags_historical /\
    ~ has_flag flags_starred row.
Proof.
  intros Hbot Hl He Hdisjoint Hstarred Hsame.
  destruct (send_initial_realm_messages_run settings remove_single_newlines get_emoji_data
              discussion sandbox notifications flags_historical flags_starred
              cat realm' db bot l e Hbot Hl He)
    as (firsts & g & Hfirsts & _ & _ & _ & Hrun).
  destruct (welcome_messages_declared discussion sandbox notifications cat l Hl)
    as (m1 & e1 & e2 & w1 & Hdecl).
  set (new := stored (next_message_id db) (prepared realm' bot l)) in *.
  set (message_ids := map message_id new) in *.
  assert (length message_ids = length l) as Hlen.
  { unfold message_ids, new. by rewrite length_map, stored_length, length_map. }
  assert (is_Some (message_ids !! 7%nat)) as [id Hid].
  { apply lookup_lt_is_Some. rewrite Hlen, Hdecl. simpl. lia. }
  assert (id ∉ firsts) as Hnot.
  { rewrite (first_message_ids_first_of_topic l message_ids firsts 7 id
               (stored_ids_NoDup _ _) Hlen Hfirsts Hid).
    intros Hfirst. rewrite Hdecl in Hfirst.
    by apply (Hfirst 2%nat _ _ ltac:(lia) eq_refl eq_refl). }
  eexists _, (rows_of realm' message_ids firsts), _, _, _.
  split; [exact Hrun|]. split; [reflexivity|].
  split; [rewrite Hdecl; reflexivity|]. split; [reflexivity|].
  split; [rewrite Hdecl; reflexivity|]. split; [reflexivity|]. split; [exact Hsame|].
  assert (rows_of realm' message_ids firsts !! 7%nat =
          Some {| oum_realm_id := realm_id realm'; oum_message_id := id;
                  oum_flags := flags_historical |}) as Hrow.
  { unfold onboarding_rows. rewrite list_lookup_fmap, Hid. simpl.
    by rewrite bool_decide_eq_false_2. }
  split; [exact Hrow|]. split; [reflexivity|].
  unfold has_flag. simpl. rewrite Hdisjoint. intros Hzero. by apply Hstarred.
Qed.

(** The loop adds one id for each topic name that it had not seen. *)
Lemma first_message_ids_from_size (remaining : list WelcomeMessage) :
  forall (index : nat) (message_ids : list Z) (seen_topics : gset string)
         (firsts result : gset Z),
    NoDup message_ids ->
    (forall id, id ∈ firsts -> exists j, (j < index)%nat /\ message_ids !! j = Some id) ->
    first_message_ids_from index remaining message_ids seen_topics firsts = inr result ->
    size result =
      (size firsts +
       size ((list_to_set (map wm_topic_name remaining) : gset string) ∖ seen_topics))%nat.
Proof.
  induction remaining as [|message rest IH];
    intros index ids seen firsts result Hnodup Hfirsts Hrun.
  - simpl in Hrun. injection Hrun as <-. simpl.
    assert ((∅ : gset string) ∖ seen = ∅) as -> by set_solver.
    rewrite size_empty. lia.
  - cbn [first_message_ids_from] in Hrun. cbn [map list_to_set].
    case_bool_decide as Hseen.
    + destruct (ids !! index) as [id0|] eqn:Hid0; [|done].
      assert (id0 ∉ firsts) as Hfresh.
      { intros Hin. destruct (Hfirsts id0 Hin) as (j & Hj & Hjd).
        pose proof (NoDup_lookup _ _ _ _ Hnodup Hjd Hid0). lia. }
      assert (forall id, id ∈ firsts ∪ {[id0]} ->
                         exists j, (j < S index)%nat /\ ids !! j = Some id) as Hpre.
      { intros id Hin. apply elem_of_union in Hin as [Hin|Hin].
        - destruct (Hfirsts id Hin) as (j & Hj & Hjd). exists j. split; [lia|done].
        - apply elem_of_singleton in Hin as ->. exists index. split; [lia|done]. }
      rewrite (IH _ _ _ _ _ Hnodup Hpre Hrun).
      rewrite (size_union firsts) by by apply fresh_id_disjoint.
      rewrite size_singleton, (difference_with_unseen _ _ _ Hseen).
      rewrite (size_union (C := gset string) {[wm_topic_name message]})
        by apply unseen_disjoint.
      rewrite size_singleton. lia.
    + assert (forall id, id ∈ firsts ->
                         exists j, (j < S index)%nat /\ ids !! j = Some id) as Hpre.
      { intros id Hin. destruct (Hfirsts id Hin) as (j & Hj & Hjd).
        exists j. split; [lia|done]. }
      rewrite (IH _ _ _ _ _ Hnodup Hpre Hrun).
      by rewrite (difference_with_seen _ _ _ Hseen).
Qed.

(** The ids of a list without repetition that lie in a set of such ids are as
    many as the set has elements. *)
Lemma length_filter_elem_of (ids : list Z) (selected : gset Z) :
  NoDup ids ->
  (forall id, id ∈ selected -> id ∈ ids) ->
  length (List.filter (fun id => bool_decide (id ∈ selected)) ids) = size selected.
Proof.
  intros Hnodup Hsub. unfold size, set_size. simpl.
  apply Permutation_length, NoDup_Permutation.
  - by apply NoDup_list_filter.
  - apply NoDup_elements.
  - intros id. rewrite list_elem_of_In, filter_In, <- list_elem_of_In.
    rewrite bool_decide_eq_true, elem_of_elements. split; [tauto|]. intros Hin.
    split; [by apply Hsub | done].
Qed.

(** X11. One star per topic name.  With the two flags on different bits,
    the marker rows of a run that carry the starred flag are as many as the
    declared messages have distinct topic names; in the source language that
    is five of the twelve rows. *)
Theorem one_star_per_topic_name
    (cat : Catalog) (realm' : Realm) (db : DB) (bot : UserProfile)
    (l : list WelcomeMessage) (e : EmojiData) :
  get_system_bot (WELCOME_BOT settings) (realm_id realm') db = (inr bot, db) ->
  welcome_messages discussion sandbox notifications cat = inr l ->
  get_emoji_data (realm_id realm') "wave" = inr e ->
  Z.land flags_historical flags_starred = 0%Z ->
  flags_starred <> 0%Z ->
  exists db' rows,
    send cat realm' db = (inr tt, db') /\
    onboarding_user_messages db' = onboarding_user_messages db ++ rows /\
    length rows = 12%nat /\
    length (List.filter (is_starred flags_starred) rows) =
      size (list_to_set (map wm_topic_name l) : gset string) /\
    (cat = untranslated ->
     length (List.filter (is_starred flags_starred) rows) = 5%nat).
Proof.
  intros Hbot Hl He Hdisjoint Hstarred.
  destruct (send_initial_realm_messages_run settings remove_single_newlines get_emoji_data
              discussion sandbox notifications flags_historical flags_starred
              cat realm' db bot l e Hbot Hl He)
    as (firsts & g & Hfirsts & _ & _ & _ & Hrun).
  destruct (welcome_messages_declared discussion sandbox notifications cat l Hl)
    as (m1 & e1 & e2 & w1 & Hdecl).
  set (new := stored (next_message_id db) (prepared realm' bot l)) in *.
  set (message_ids := map message_id new) in *.
  assert (length message_ids = length l) as Hlen.
  { unfold message_ids, new. by rewrite length_map, stored_length, length_map. }
  assert (NoDup message_ids) as Hnodup by apply stored_ids_NoDup.
  assert (length (List.filter (is_starred flags_starred) (rows_of realm' message_ids firsts))
          = size (list_to_set (map wm_topic_name l) : gset string)) as Hcount.
  { unfold onboarding_rows. rewrite length_filter_map.
    rewrite (filter_ext _ (fun id => bool_decide (id ∈ firsts))).
    - rewrite length_filter_elem_of; [|done|].
      + rewrite (first_message_ids_from_size l 0 message_ids ∅ ∅ firsts Hnodup) by set_solver.
        rewrite size_empty, difference_empty_L. done.
      + intros id Hid.
        apply (first_message_ids_from_spec _ _ _ _ _ _ Hfirsts) in Hid
          as [Hid|(j & w & _ & Hj & _)]; [set_solver|].
        by eapply list_elem_of_lookup_2.
    - intros id. unfold is_starred. simpl. case_bool_decide.
      + rewrite lor_has_right. apply Z.eqb_refl.
      + rewrite Hdisjoint. apply Z.eqb_neq. intros Hzero. by apply Hstarred. }
  exists (seeded db new (rows_of realm' message_ids firsts) [wave_reaction bot g e]),
    (rows_of realm' message_ids firsts).
  split; [exact Hrun|]. split; [reflexivity|]. split; [|split; [exact Hcount|]].
  - unfold onboarding_rows. rewrite length_map, Hlen, Hdecl. reflexivity.
  - intros ->. rewrite Hcount, Hdecl. vm_compute. reflexivity.
Qed.

(** Storing messages, marker rows and reactions leaves the accounts as they
    are, so a system bot found before is found after. *)
Lemma get_system_bot_seeded
    (bot_email : string) (realm_id' : Z) (db : DB) (bot : UserProfile)
    (new : list Message) (rows : list OnboardingUserMessage) (rs : list Reaction) :
  get_system_bot bot_email realm_id' db = (inr bot, db) ->
  get_system_bot bot_email realm_id' (seeded db new rows rs)
    = (inr bot, seeded db new rows rs).
Proof.
  unfold get_system_bot. cbn [seeded user_profiles].
  destruct (List.find _ (user_profiles db)); [|done]. by intros [= ->].
Qed.

(** The ids stay below the sequence when the messages of one send are added. *)
Lemma ids_below_sequence_seeded
    (db : DB) (reqs : list SendMessageRequest)
    (rows : list OnboardingUserMessage) (rs : list Reaction) :
  ids_below_sequence db ->
  ids_below_sequence (seeded db (stored (next_message_id db) reqs) rows rs).
Proof.
  unfold ids_below_sequence. cbn [seeded messages next_message_id]. intros Hbelow.
  apply Forall_app. split.
  - eapply Forall_impl; [exact Hbelow|]. intros m Hm. simpl in Hm. lia.
  - apply Forall_forall. intros m Hm. apply list_elem_of_lookup in Hm as (i & Hi).
    pose proof (lookup_lt_Some _ _ _ Hi) as Hlt.
    apply stored_lookup in Hi as [-> _]. lia.
Qed.

(** X12. The function does not notice an earlier run.  Called twice (the
    Welcome Bot and the emoji found, the contents formatted, the older ids
    below the sequence) it returns twice and leaves twenty-four messages,
    twenty-four marker rows and two reactions, each reaction on a message of
    its own run. *)
Theorem send_initial_realm_messages_twice
    (cat : Catalog) (realm' : Realm) (db : DB) (bot : UserProfile)
    (l : list WelcomeMessage) (e : EmojiData) :
  get_system_bot (WELCOME_BOT settings) (realm_id realm') db = (inr bot, db) ->
  welcome_messages discussion sandbox notifications cat = inr l ->
  get_emoji_data (realm_id realm') "wave" = inr e ->
  ids_below_sequence db ->
  exists db1 db2 g1 g2,
    send cat realm' db = (inr tt, db1) /\
    send cat realm' db1 = (inr tt, db2) /\
    length (messages db2) = (length (messages db) + 24)%nat /\
    length (onboarding_user_messages db2) = (length (onboarding_user_messages db) + 24)%nat /\
    reactions db2 = reactions db ++ [wave_reaction bot g1 e; wave_reaction bot g2 e] /\
    (next_message_id db <= message_id g1 < next_message_id db1)%Z /\
    (next_message_id db1 <= message_id g2 < next_message_id db2)%Z /\
    ids_below_sequence db2.
Proof.
  intros Hbot Hl He Hbelow.
  destruct (welcome_messages_declared discussion sandbox notifications cat l Hl)
    as (m1 & e1 & e2 & w1 & Hdecl).
  assert (forall db0,
            get_system_bot (WELCOME_BOT settings) (realm_id realm') db0 = (inr bot, db0) ->
            exists new rows g,
              new = stored (next_message_id db0) (prepared realm' bot l) /\
              length new = 12%nat /\ length rows = 12%nat /\
              send cat realm' db0 = (inr tt, seeded db0 new rows [wave_reaction bot g e]) /\
              (next_message_id db0 <= message_id g < next_message_id db0 + 12)%Z) as Hstep.
  { intros db0 Hbot0.
    destruct (send_initial_realm_messages_run settings remove_single_newlines get_emoji_data
                discussion sandbox notifications flags_historical flags_starred
                cat realm' db0 bot l e Hbot0 Hl He)
      as (firsts & g & _ & _ & Hid & _ & Hrun).
    exists (stored (next_message_id db0) (prepared realm' bot l)),
      (rows_of realm' (map message_id (stored (next_message_id db0) (prepared realm' bot l)))
         firsts),
      g.
    split; [reflexivity|].
    split; [by rewrite stored_length, length_map, Hdecl|].
    split; [unfold onboarding_rows;
            by rewrite !length_map, stored_length, length_map, Hdecl|].
    split; [exact Hrun|].
    apply list_elem_of_fmap in Hid as (m & -> & Hm).
    apply list_elem_of_lookup in Hm as (i & Hi).
    pose proof (lookup_lt_Some _ _ _ Hi) as Hlt.
    rewrite stored_length, length_map, Hdecl in Hlt. simpl in Hlt.
    apply stored_lookup in Hi as [-> _]. lia. }
  destruct (Hstep db Hbot) as (new1 & rows1 & g1 & Hnew1 & Hlen1 & Hrows1 & Hrun1 & Hg1).
  set (db1 := seeded db new1 rows1 [wave_reaction bot g1 e]) in *.
  destruct (Hstep db1 (get_system_bot_seeded _ _ _ _ _ _ _ Hbot))
    as (new2 & rows2 & g2 & Hnew2 & Hlen2 & Hrows2 & Hrun2 & Hg2).
  exists db1, (seeded db1 new2 rows2 [wave_reaction bot g2 e]), g1, g2.
  split; [exact Hrun1|]. split; [exact Hrun2|].
  cbn [seeded db1 messages onboarding_user_messages reactions next_message_id].
  rewrite !length_app, Hlen1, Hlen2, Hrows1, Hrows2, <- !app_assoc.
  split; [lia|]. split; [lia|]. split; [done|].
  split; [unfold db1; cbn [seeded next_message_id]; lia|].
  split; [unfold db1 in *; cbn [seeded next_message_id] in *; lia|].
  rewrite Hnew2. apply (ids_below_sequence_seeded db1).
  unfold db1. rewrite Hnew1. by apply ids_below_sequence_seeded.
Qed.

End RealmMessagesEdges.

(** The loop raises exactly when an entry with a topic name not seen before
    stands at a position for which there is no id. *)
Lemma first_message_ids_from_raises (remaining : list WelcomeMessage) :
  forall (index : nat) (message_ids : list Z) (seen_topics : gset string)
         (firsts : gset Z) (err : Py.exn),
    first_message_ids_from index remaining message_ids seen_topics firsts = inl err <->
    err = Py.IndexError /\
    exists j w,
      remaining !! j = Some w /\
      (length message_ids <= index + j)%nat /\
      (wm_topic_name w ∉ seen_topics) /\
      (forall j' w', (j' < j)%nat -> remaining !! j' = Some w' ->
                     wm_topic_name w' <> wm_topic_name w).
Proof.
  induction remaining as [|message rest IH]; intros index ids seen firsts err.
  - simpl. split; [done|]. by intros (_ & j & w & Hw & _).
  - cbn [first_message_ids_from]. case_bool_decide as Hseen.
    + destruct (ids !! index) as [id0|] eqn:Hid0.
      * rewrite IH. split.
        -- intros (-> & j & w & Hw & Hlen & Hfresh & Hearlier). split; [done|].
           exists (S j), w. rewrite Nat.add_succ_r. repeat split; [done..| |].
           ++ intros Hin. apply Hfresh. apply elem_of_union. by left.
           ++ intros [|j'] w' Hj' Hw'; simpl in Hw'.
              ** injection Hw' as <-. intros Heq. apply Hfresh.
                 apply elem_of_union. right. by apply elem_of_singleton.
              ** apply (Hearlier j'); [lia|done].
        -- intros (-> & j & w & Hw & Hlen & Hfresh & Hearlier). split; [done|].
           destruct j as [|j]; simpl in Hw.
           ++ apply lookup_lt_Some in Hid0. lia.
           ++ exists j, w. rewrite Nat.add_succ_r in Hlen. repeat split; [done..| |].
              ** intros Hin. apply elem_of_union in Hin as [Hin|Hin]; [done|].
                 apply elem_of_singleton in Hin.
                 by apply (Hearlier 0%nat message ltac:(lia) eq_refl).
              ** intros j' w' Hj' Hw'. apply (Hearlier (S j')); [lia|done].
      * split.
        -- intros [= <-]. split; [done|]. exists 0%nat, message.
           apply lookup_ge_None in Hid0.
           split; [done|]. split; [lia|]. split; [done|].
           intros j' w' Hj'. lia.
        -- by intros (-> & _).
    + rewrite IH. split.
      * intros (-> & j & w & Hw & Hlen & Hfresh & Hearlier). split; [done|].
        exists (S j), w. rewrite Nat.add_succ_r. repeat split; [done..|].
        intros [|j'] w' Hj' Hw'; simpl in Hw'.
        -- injection Hw' as <-. intros Heq. rewrite Heq in Hseen. done.
        -- apply (Hearlier j'); [lia|done].
      * intros (-> & j & w & Hw & Hlen & Hfresh & Hearlier). split; [done|].
        destruct j as [|j]; simpl in Hw.
        -- injection Hw as <-. done.
        -- exists j, w. rewrite Nat.add_succ_r in Hlen. repeat split; [done..|].
           intros j' w' Hj' Hw'. apply (Hearlier (S j')); [lia|done].
Qed.

(** X13. The bounds of the loop that picks the first message of each topic:
    given fewer ids than declared messages, it raises [IndexError] exactly
    when some declared message that is the first of its topic name stands at
    a position with no id, and it raises nothing else; with an id for every
    declared message it never raises. *)
Theorem first_message_ids_index_error (l : list WelcomeMessage) (message_ids : list Z) :
  (first_message_ids_from 0 l message_ids ∅ ∅ = inl Py.IndexError <->
   exists i, (length message_ids <= i < length l)%nat /\ first_of_its_topic l i) /\
  (forall err, first_message_ids_from 0 l message_ids ∅ ∅ = inl err -> err = Py.IndexError) /\
  ((length l <= length message_ids)%nat ->
   exists firsts, first_message_ids_from 0 l message_ids ∅ ∅ = inr firsts).
Proof.
  split; [|split].
  - rewrite first_message_ids_from_raises. split.
    + intros (_ & j & w & Hw & Hlen & _ & Hearlier). exists j. split.
      * apply lookup_lt_Some in Hw. simpl in Hlen. lia.
      * intros j' w0 w' Hj' Hw' Hw0. rewrite Hw in Hw0. injection Hw0 as <-.
        by apply (Hearlier j').
    + intros (i & [Hlen Hi] & Hfirst). split; [done|].
      destruct (lookup_lt_is_Some_2 l i Hi) as [w Hw].
      exists i, w. split; [done|]. split; [simpl; lia|].
      split; [apply not_elem_of_empty|].
      intros j' w' Hj' Hw'. by apply (Hfirst j' w w').
  - intros err Herr. by apply first_message_ids_from_raises in Herr as [-> _].
  - intros Hlen. apply first_message_ids_from_total. simpl. lia.
Qed.

Lemma sample_db_ids_below : ids_below_sequence sample_db.
Proof. constructor. Defined.

(** X9, on the sample installation: the reaction is on a message of the run
    with the greetings content, at the eighth position or before. *)
Lemma reaction_goes_to_first_message_with_content_witness :
  exists db' g,
    sample_send_in untranslated sample_db = (inr tt, db') /\
    reactions db' =
      [wave_reaction (sample_bot 6 "welcome-bot@zulip.com" sample_realm) g
         {| emoji_code := "1f44b"; reaction_type := "unicode_emoji" |}] /\
    content g = remove_single_newlines_model greetings_1_msgid.
Proof.
  destruct (welcome_messages sample_discussion sample_sandbox sample_notifications untranslated)
    as [err|l] eqn:Hl; [discriminate Hl|].
  destruct (reaction_goes_to_first_message_with_content sample_settings
              remove_single_newlines_model sample_emoji_data
              sample_discussion sample_sandbox sample_notifications
              sample_historical sample_starred
              untranslated sample_realm sample_db
              (sample_bot 6 "welcome-bot@zulip.com" sample_realm) l
              {| emoji_code := "1f44b"; reaction_type := "unicode_emoji" |}
              eq_refl Hl eq_refl sample_db_ids_below)
    as (db' & g & i & Hrun & Hreactions & _ & Hcontent & _).
  exists db', g. split; [exact Hrun|]. split; [exact Hreactions | exact Hcontent].
Defined.

(** In the source language the reaction is on the first greetings message,
    107; when a translation gives an earlier message the same text, it is on
    that message, here 101 in the discussion channel. *)
Example sample_reaction_targets :
  map reaction_message_id (reactions (snd (sample_send_in untranslated sample_db))) = [107%Z] /\
  map reaction_message_id (reactions (snd (sample_send_in echoing_catalog sample_db))) = [101%Z].
Proof.
  split; vm_compute; reflexivity.
Qed.

(** X10, on the sample installation with the colliding catalog. *)
Lemma same_topic_name_in_two_channels_one_star_witness :
  exists db' rows row,
    sample_send_in colliding_catalog sample_db = (inr tt, db') /\
    onboarding_user_messages db' = rows /\
    rows !! 7%nat = Some row /\
    oum_flags row = sample_historical.
Proof.
  destruct (welcome_messages sample_discussion sample_sandbox sample_notifications
              colliding_catalog) as [err|l] eqn:Hl; [discriminate Hl|].
  destruct (same_topic_name_in_two_channels_one_star sample_settings
              remove_single_newlines_model sample_emoji_data
              sample_discussion sample_sandbox sample_notifications
              sample_historical sample_starred
              colliding_catalog sample_realm sample_db
              (sample_bot 6 "welcome-bot@zulip.com" sample_realm) l
              {| emoji_code := "1f44b"; reaction_type := "unicode_emoji" |}
              eq_refl Hl eq_refl eq_refl ltac:(discriminate) eq_refl)
    as (db' & rows & row & w & w' & Hrun & Hrows & _ & _ & _ & _ & _ & Hrow & Hflags & _).
  exists db', rows, row. split; [exact Hrun|]. split; [exact Hrows|].
  split; [exact Hrow | exact Hflags].
Defined.

(** With the colliding catalog four rows are starred, not five. *)
Example sample_colliding_flags :
  map oum_flags (onboarding_user_messages (snd (sample_send_in colliding_catalog sample_db)))
    = [3; 1; 3; 1; 3; 1; 1; 1; 1; 3; 1; 1]%Z.
Proof. vm_compute. reflexivity. Qed.

(** X11, on the sample installation: five starred rows. *)
Lemma one_star_per_topic_name_witness :
  exists db' rows,
    sample_send_in untranslated sample_db = (inr tt, db') /\
    onboarding_user_messages db' = rows /\
    length (List.filter (is_starred sample_starred) rows) = 5%nat.
Proof.
  destruct (welcome_messages sample_discussion sample_sandbox sample_notifications untranslated)
    as [err|l] eqn:Hl; [discriminate Hl|].
  destruct (one_star_per_topic_name sample_settings
              remove_single_newlines_model sample_emoji_data
              sample_discussion sample_sandbox sample_notifications
              sample_historical sample_starred
              untranslated sample_realm sample_db
              (sample_bot 6 "welcome-bot@zulip.com" sample_realm) l
              {| emoji_code := "1f44b"; reaction_type := "unicode_emoji" |}
              eq_refl Hl eq_refl eq_refl ltac:(discriminate))
    as (db' & rows & Hrun & Hrows & _ & _ & Hfive).
  exists db', rows. split; [exact Hrun|]. split; [exact Hrows | exact (Hfive eq_refl)].
Defined.

(** X12, on the sample installation: two runs, two reactions. *)
Lemma send_initial_realm_messages_twice_witness :
  exists db1 db2,
    sample_send_in untranslated sample_db = (inr tt, db1) /\
    sample_send_in untranslated db1 = (inr tt, db2) /\
    length (messages db2) = 24%nat /\
    length (reactions db2) = 2%nat.
Proof.
  destruct (welcome_messages sample_discussion sample_sandbox sample_notifications untranslated)
    as [err|l] eqn:Hl; [discriminate Hl|].
  destruct (send_initial_realm_messages_twice sample_settings
              remove_single_newlines_model sample_emoji_data
              sample_discussion sample_sandbox sample_notifications
              sample_historical sample_starred
              untranslated sample_realm sample_db
              (sample_bot 6 "welcome-bot@zulip.com" sample_realm) l
              {| emoji_code := "1f44b"; reaction_type := "unicode_emoji" |}
              eq_refl Hl eq_refl sample_db_ids_below)
    as (db1 & db2 & g1 & g2 & Hrun1 & Hrun2 & Hmessages & _ & Hreactions & _).
  exists db1, db2. split; [exact Hrun1|]. split; [exact Hrun2|].
  split; [exact Hmessages|]. rewrite Hreactions. reflexivity.
Defined.
